(** * Bubuku: broker identity resolver and broker lifecycle controller

    A shallow embedding of [bubuku/id_generator.py] and [bubuku/broker.py],
    and of the table printer of [bubuku/cli.py], with the properties of the
    identity derivation, of the leadership safety check, of the start / stop
    operations of the controller and of the printed table. *)

From Stdlib Require Import ZArith String Ascii List Lia Bool Sorted.
From stdpp Require Import base option list gmap strings pretty.

Local Open Scope string_scope.
Local Open Scope Z_scope.

(** ** Python results

    A Python call returns a value or raises.  The third outcome is only
    produced by the fuel-bounded unfolding of [while] loops; it is not an
    exception and no [except] clause sees it. *)

Inductive Exn : Type :=
| ValueError
| IndexError
| TypeError
| NotImplementedError (msg : string)
| NoNodeError
| ConnectionLoss
| OSError
| LeaderElectionInProgress
| Exception (msg : string).

Inductive Res (A : Type) : Type :=
| Ok (a : A)
| Raise (e : Exn)
| OutOfFuel.

Arguments Ok {A} a.
Arguments Raise {A} e.
Arguments OutOfFuel {A}.

Definition res_bind {A B} (r : Res A) (k : A -> Res B) : Res B :=
  match r with
  | Ok a => k a
  | Raise e => Raise e
  | OutOfFuel => OutOfFuel
  end.

(** ** Python strings and integers *)

(** [str(n)] for an [int]. *)
Definition py_str (n : Z) : string := pretty n.

(** [s.split(sep)] with an explicit one-character separator: every
    occurrence splits, adjacent separators give empty strings, and the
    result is never empty. *)
Fixpoint py_split (sep : ascii) (s : string) : list string :=
  match s with
  | EmptyString => [EmptyString]
  | String c r =>
      if Ascii.eqb c sep then EmptyString :: py_split sep r
      else match py_split sep r with
           | h :: t => String c h :: t
           | [] => [String c EmptyString]
           end
  end.

Definition digit_of (c : ascii) : option Z :=
  let n := Z.of_N (N_of_ascii c) in
  if (48 <=? n) && (n <=? 57) then Some (n - 48) else None.

Fixpoint int_digits (acc : Z) (s : string) : option Z :=
  match s with
  | EmptyString => Some acc
  | String c r =>
      match digit_of c with
      | Some d => int_digits (acc * 10 + d) r
      | None => None
      end
  end.

(** [int(v)] for a string of ASCII decimal digits, which is what the
    components of a dotted-decimal IPv4 address are; any other string is
    rejected with [ValueError] here. *)
Definition py_int (v : string) : Res Z :=
  match v with
  | EmptyString => Raise ValueError
  | _ => match int_digits 0 v with
         | Some z => Ok z
         | None => Raise ValueError
         end
  end.

(** [[f(v) for v in l]] for an [f] that may raise. *)
Fixpoint py_map {A B} (f : A -> Res B) (l : list A) : Res (list B) :=
  match l with
  | [] => Ok []
  | x :: r => res_bind (f x) (fun y => res_bind (py_map f r) (fun ys => Ok (y :: ys)))
  end.

(** [l[i]], raising [IndexError] out of range. *)
Definition py_index {A} (l : list A) (i : nat) : Res A :=
  match l !! i with
  | Some x => Ok x
  | None => Raise IndexError
  end.

(** ** [id_generator.py]: the address hash *)

Definition reserved_max_id : Z := 256 * 256 * 256 * 3 + 1.

(** [functools.reduce(lambda o, v: o * 256 + v, address, 0)] *)
Definition fold_octets (address : list Z) : Z :=
  fold_left (fun o v => o * 256 + v) address 0.

Definition _create_rfc1918_address_hash (ip : string) : Res (option (string * string)) :=
  res_bind (py_map py_int (py_split "." ip)) (fun address =>
  res_bind (py_index address 0) (fun a0 =>
  let finish (address : list Z) :=
    Ok (Some (py_str (fold_octets address), py_str reserved_max_id)) in
  if a0 =? 10 then finish (<[0%nat := 1]> address)
  else
    res_bind (if a0 =? 192 then res_bind (py_index address 1) (fun a1 => Ok (a1 =? 168))
              else Ok false) (fun c192 =>
    if c192 then finish (<[0%nat := 2]> address)
    else
      res_bind (if a0 =? 172
                then res_bind (py_index address 1) (fun a1 => Ok (Z.land a1 240 =? 16))
                else Ok false) (fun c172 =>
      if c172 then finish (<[0%nat := 3]> address)
      else Ok None)))).

(** ** IPv4 addresses and the RFC1918 blocks *)

Record IPv4 : Type := mkIPv4 { o1 : Z; o2 : Z; o3 : Z; o4 : Z }.

Definition is_octet (x : Z) : bool := (0 <=? x) && (x <? 256).

Definition valid_ipv4 (a : IPv4) : bool :=
  is_octet (o1 a) && is_octet (o2 a) && is_octet (o3 a) && is_octet (o4 a).

(** The address as a 32-bit number, and as the dotted-decimal string the
    cloud metadata service hands out. *)
Definition ipv4_to_Z (a : IPv4) : Z :=
  ((o1 a * 256 + o2 a) * 256 + o3 a) * 256 + o4 a.

Definition dotted (a : IPv4) : string :=
  py_str (o1 a) +:+ "." +:+ py_str (o2 a) +:+ "." +:+ py_str (o3 a) +:+ "." +:+ py_str (o4 a).

(** Membership of [a] in the block [base/len]: the top [len] bits agree. *)
Definition in_cidr (base : IPv4) (len : Z) (a : IPv4) : bool :=
  Z.shiftr (ipv4_to_Z a) (32 - len) =? Z.shiftr (ipv4_to_Z base) (32 - len).

Definition net10 (a : IPv4) : bool := in_cidr (mkIPv4 10 0 0 0) 8 a.
Definition net172 (a : IPv4) : bool := in_cidr (mkIPv4 172 16 0 0) 12 a.
Definition net192 (a : IPv4) : bool := in_cidr (mkIPv4 192 168 0 0) 16 a.

Definition rfc1918 (a : IPv4) : bool := net10 a || net172 a || net192 a.

(** The discriminator that replaces the first octet. *)
Definition discriminator (a : IPv4) : Z :=
  if net10 a then 1 else if net192 a then 2 else 3.

Definition derived_value (a : IPv4) : Z :=
  ((discriminator a * 256 + o2 a) * 256 + o3 a) * 256 + o4 a.

(** ** The world the controller runs in

    The coordination tree, the local file system and the process launcher
    are external; they are read through the functions below.  The tree and
    the file system change over time on their own (registrations appear and
    expire), so they are indexed by the clock, in seconds. *)

(** The value of a [/brokers/topics/T/partitions/P/state] node, as
    [json.loads] returns it: [leader] is always written by the cluster,
    [isr] is read with [state.get('isr', [])]. *)
Record PartitionState : Type := mkState { leader : Z; isr : option (list Z) }.

(** A node of the tree.  [znode_state] is [None] when the node's bytes are
    not a partition state object. *)
Record ZNode : Type := mkNode {
  znode_state : option PartitionState;
  znode_stat : option Z;
  znode_children : list string
}.

(** A [subprocess.Popen] handle; the two flags say whether [terminate()]
    and [wait()] raise on it. *)
Record Process : Type := mkProcess {
  pid : nat;
  terminate_raises : bool;
  wait_raises : bool
}.

(** What the controller does to the outside, in order. *)
Inductive Event : Type :=
| ZkGetChildren (path : string)
| ZkGet (path : string)
| SetProperty (name value : string)
| DeleteProperty (name : string)
| Dump (settings : gmap string string)
| Popen (args : list string)
| Terminate (p : nat)
| Wait (p : nat)
| Sleep (seconds : nat).

Record World : Type := mkWorld {
  (* the environment *)
  zk_at : nat -> option (gmap string ZNode);
  fs_at : nat -> gmap string (list string);
  popen : list string -> option Process;
  (* time.time(), in whole seconds *)
  clock : nat;
  (* the KafkaProperties object shared by the controller and the resolver *)
  props : gmap string string;
  persisted : option (gmap string string);
  (* BrokerManager.process and BrokerManager.wait_timeout *)
  process : option Process;
  wait_timeout : nat;
  trace : list Event
}.

Definition set_clock (t : nat) (w : World) : World :=
  mkWorld (zk_at w) (fs_at w) (popen w) t (props w) (persisted w)
          (process w) (wait_timeout w) (trace w).
Definition set_props (m : gmap string string) (w : World) : World :=
  mkWorld (zk_at w) (fs_at w) (popen w) (clock w) m (persisted w)
          (process w) (wait_timeout w) (trace w).
Definition set_persisted (f : option (gmap string string)) (w : World) : World :=
  mkWorld (zk_at w) (fs_at w) (popen w) (clock w) (props w) f
          (process w) (wait_timeout w) (trace w).
Definition set_process (p : option Process) (w : World) : World :=
  mkWorld (zk_at w) (fs_at w) (popen w) (clock w) (props w) (persisted w)
          p (wait_timeout w) (trace w).
Definition set_wait_timeout (t : nat) (w : World) : World :=
  mkWorld (zk_at w) (fs_at w) (popen w) (clock w) (props w) (persisted w)
          (process w) t (trace w).
Definition set_trace (l : list Event) (w : World) : World :=
  mkWorld (zk_at w) (fs_at w) (popen w) (clock w) (props w) (persisted w)
          (process w) (wait_timeout w) l.

(** ** The monad of Python code: state and exceptions *)

Definition M (A : Type) : Type := World -> Res A * World.

Definition ret {A} (a : A) : M A := fun w => (Ok a, w).

Definition bind {A B} (m : M A) (k : A -> M B) : M B := fun w =>
  match m w with
  | (Ok a, w') => k a w'
  | (Raise e, w') => (Raise e, w')
  | (OutOfFuel, w') => (OutOfFuel, w')
  end.

Notation "'let*' x ':=' m 'in' k" := (bind m (fun x => k))
  (at level 10, x name, m at level 100, k at level 200).

Definition raise {A} (e : Exn) : M A := fun w => (Raise e, w).
Definition out_of_fuel {A} : M A := fun w => (OutOfFuel, w).
Definition lift {A} (r : Res A) : M A := fun w => (r, w).
Definition emit (e : Event) : M unit := fun w => (Ok tt, set_trace (trace w ++ [e]) w).

(** [try: body  except Exception as e: handler e] *)
Definition try_except {A} (body : M A) (handler : Exn -> M A) : M A := fun w =>
  match body w with
  | (Raise e, w') => handler e w'
  | r => r
  end.

(** [try: body  finally: fin] *)
Definition try_finally {A} (body : M A) (fin : M unit) : M A := fun w =>
  match body w with
  | (OutOfFuel, w') => (OutOfFuel, w')
  | (r, w') =>
      match fin w' with
      | (Ok _, w'') => (r, w'')
      | (Raise e, w'') => (Raise e, w'')
      | (OutOfFuel, w'') => (OutOfFuel, w'')
      end
  end.

(** A [for] loop whose body may [return]: [Some v] leaves the loop (and
    the function) with [v], [None] goes on to the next element. *)
Fixpoint for_each {A R} (body : A -> M (option R)) (l : list A) : M (option R) :=
  match l with
  | [] => ret None
  | x :: r =>
      let* o := body x in
      match o with
      | Some v => ret (Some v)
      | None => for_each body r
      end
  end.

(** [time.time()] and [time.sleep(n)] *)
Definition time : M nat := fun w => (Ok (clock w), w).
Definition sleep (n : nat) : M unit :=
  let* _ := emit (Sleep n) in
  fun w => (Ok tt, set_clock (clock w + n)%nat w).

(** ** The external collaborators *)

(** Modelled from the spec: the coordination client ([bubuku/zookeeper.py],
    class [Exhibitor]).  [getChildren(path)] gives the ordered sequence of
    child names and [getNode(path)] the node's bytes and metadata; both fail
    with [NoNodeError] when the node is absent, and any other failure of
    the lookup surfaces as an error. *)
Definition zk_lookup (path : string) : M ZNode := fun w =>
  match zk_at w (clock w) with
  | None => (Raise ConnectionLoss, w)
  | Some tree =>
      match tree !! path with
      | Some n => (Ok n, w)
      | None => (Raise NoNodeError, w)
      end
  end.

Definition exhibitor_get_children (path : string) : M (list string) :=
  let* _ := emit (ZkGetChildren path) in
  let* n := zk_lookup path in
  ret (znode_children n).

Definition exhibitor_get (path : string) : M ZNode :=
  let* _ := emit (ZkGet path) in
  zk_lookup path.

(** Modelled from the spec: the broker configuration store
    ([bubuku/config.py], class [KafkaProperties]): [getProperty(key)] gives
    a string or [None], [setProperty], [deleteProperty] and [persist()]. *)
Definition get_property (name : string) : M (option string) := fun w =>
  (Ok (props w !! name), w).

Definition set_property (name value : string) : M unit :=
  let* _ := emit (SetProperty name value) in
  fun w => (Ok tt, set_props (<[name := value]> (props w)) w).

Definition delete_property (name : string) : M unit :=
  let* _ := emit (DeleteProperty name) in
  fun w => (Ok tt, set_props (delete name (props w)) w).

Definition dump : M unit := fun w =>
  (Ok tt, set_persisted (Some (props w)) (set_trace (trace w ++ [Dump (props w)]) w)).

(** [subprocess.Popen(args)], [Popen.terminate()] and [Popen.wait()] *)
Definition subprocess_Popen (args : list string) : M Process :=
  let* _ := emit (Popen args) in
  fun w => match popen w args with
           | Some p => (Ok p, w)
           | None => (Raise OSError, w)
           end.

Definition process_terminate (p : Process) : M unit :=
  let* _ := emit (Terminate (pid p)) in
  if terminate_raises p then raise OSError else ret tt.

Definition process_wait (p : Process) : M unit :=
  let* _ := emit (Wait (pid p)) in
  if wait_raises p then raise OSError else ret tt.

(** [os.path.isfile(path)] and [open(path).readlines()] *)
Definition os_path_isfile (path : string) : M bool := fun w =>
  (Ok (bool_decide (is_Some (fs_at w (clock w) !! path))), w).

Definition readlines (path : string) : M (list string) := fun w =>
  match fs_at w (clock w) !! path with
  | Some lines => (Ok lines, w)
  | None => (Raise OSError, w)
  end.

(** ** [id_generator.py]: the identity resolvers *)

(** The two subclasses of [BrokerIdGenerator].  The base class itself is
    never instantiated: [get_broker_id_policy] builds one of these two, and
    both override [get_broker_id] and [is_registered]. *)
Inductive BrokerIdGenerator : Type :=
| BrokerIDByIp (broker_id : string)
| BrokerIdAutoAssign.

(** [BrokerIdGenerator._is_registered_in_zk] *)
Definition _is_registered_in_zk (id_ : string) : M bool :=
  try_except
    (let* n := exhibitor_get ("/brokers/ids/" +:+ id_) in
     ret (bool_decide (is_Some (znode_stat n))))
    (fun e => match e with
              | NoNodeError => ret false
              | _ => raise e
              end).

(** [BrokerIDByIp.__init__].  Unpacking [None] into two names raises
    [TypeError]; after a successful unpacking [broker_id] is a string, so
    the final [is None] test of the source never fires. *)
Definition BrokerIDByIp__init__ (ip : string) : M BrokerIdGenerator :=
  let* r := lift (_create_rfc1918_address_hash ip) in
  match r with
  | None => raise TypeError
  | Some (broker_id, max_id) =>
      let* _ := set_property "reserved.broker.max.id" max_id in
      ret (BrokerIDByIp broker_id)
  end.

Definition get_broker_id (self : BrokerIdGenerator) : M (option string) :=
  match self with
  | BrokerIDByIp broker_id => ret (Some broker_id)
  | BrokerIdAutoAssign => ret None
  end.

(** [re.search('broker\.id=(\d+)', line)], giving [match.group(1)]: the
    leftmost occurrence of [broker.id=] that is followed by a digit, and the
    longest run of digits after it. *)
Fixpoint strip_prefix (p s : string) : option string :=
  match p, s with
  | EmptyString, _ => Some s
  | String a p', String b s' => if Ascii.eqb a b then strip_prefix p' s' else None
  | String _ _, EmptyString => None
  end.

Definition is_digit (c : ascii) : bool :=
  match digit_of c with Some _ => true | None => false end.

Fixpoint take_digits (s : string) : string :=
  match s with
  | String c r => if is_digit c then String c (take_digits r) else EmptyString
  | EmptyString => EmptyString
  end.

Fixpoint re_search_broker_id (line : string) : option string :=
  match line with
  | EmptyString => None
  | String _ rest =>
      match strip_prefix "broker.id=" line with
      | Some tail =>
          match take_digits tail with
          | EmptyString => re_search_broker_id rest
          | ds => Some ds
          end
      | None => re_search_broker_id rest
      end
  end.

(** ['{}'.format(v)] for a string or [None] *)
Definition format_opt (v : option string) : string :=
  match v with Some s => s | None => "None" end.

Definition is_registered (self : BrokerIdGenerator) : M bool :=
  match self with
  | BrokerIDByIp broker_id => _is_registered_in_zk broker_id
  | BrokerIdAutoAssign =>
      let* log_dirs := get_property "log.dirs" in
      let meta_path := format_opt log_dirs +:+ "/meta.properties" in
      let* isfile := os_path_isfile meta_path in
      if negb isfile then ret false
      else
        let* lines := readlines meta_path in
        let* r := for_each (fun line =>
                              match re_search_broker_id line with
                              | Some id_ => let* b := _is_registered_in_zk id_ in ret (Some b)
                              | None => ret None
                              end) lines in
        match r with
        | Some b => ret b
        | None => ret false
        end
  end.

(** [BrokerIdGenerator.wait_for_broker_id_absence]: [fuel] bounds the
    number of polls. *)
Fixpoint wait_for_broker_id_absence (self : BrokerIdGenerator) (fuel : nat) : M unit :=
  match fuel with
  | O => out_of_fuel
  | S fuel' =>
      let* r := is_registered self in
      if r then let* _ := sleep 1 in wait_for_broker_id_absence self fuel'
      else ret tt
  end.

(** [BrokerIdGenerator.wait_for_broker_id_presence] *)
Fixpoint presence_loop (self : BrokerIdGenerator) (start timeout : nat) (fuel : nat) : M bool :=
  match fuel with
  | O => out_of_fuel
  | S fuel' =>
      let* r := is_registered self in
      if negb r then
        let* now := time in
        if (timeout <? now - start)%nat then ret false
        else let* _ := sleep 1 in presence_loop self start timeout fuel'
      else ret true
  end.

Definition wait_for_broker_id_presence (self : BrokerIdGenerator) (timeout : nat)
    (fuel : nat) : M bool :=
  let* start := time in
  presence_loop self start timeout fuel.

(** [get_broker_id_policy]; [own_ip] is what [amazon.get_own_ip()] gives. *)
Definition get_broker_id_policy (policy : string) (own_ip : string) : M BrokerIdGenerator :=
  if String.eqb policy "ip" then BrokerIDByIp__init__ own_ip
  else if String.eqb policy "auto" then ret BrokerIdAutoAssign
  else raise (Exception "Unsupported id generator policy").

(** ** [broker.py]: the lifecycle controller *)

(** The fields of [BrokerManager] that never change; [process] and
    [wait_timeout] live in the [World]. *)
Record BrokerManager : Type := mkBrokerManager {
  kafka_dir : string;
  id_manager : BrokerIdGenerator;
  settings_file : string
}.

(** Truth value of a list that may be [None], and [x in l]. *)
Definition truthy {A} (l : option (list A)) : bool :=
  match l with
  | Some (_ :: _) => true
  | _ => false
  end.

Definition py_in (x : string) (l : option (list string)) : bool :=
  match l with
  | Some l => bool_decide (x ∈ l)
  | None => false
  end.

Definition is_running_and_registered (self : BrokerManager) : M bool := fun w =>
  match process w with
  | None => (Ok false, w)
  | Some _ => is_registered (id_manager self) w
  end.

Definition _is_clean_election : M bool :=
  let* value := get_property "unclean.leader.election.enable" in
  ret (bool_decide (value = Some "false")).

(** The body of the inner loop of [_is_leadership_transferred] once the
    state is parsed: [Some false] is [return False], [None] falls through
    to the next partition. *)
Definition partition_verdict (active_broker_ids dead_broker_ids : option (list string))
    (state : PartitionState) : option bool :=
  let leader := py_str (leader state) in
  match
    (if truthy active_broker_ids && negb (py_in leader active_broker_ids) then
       if existsb (fun x => py_in (py_str x) active_broker_ids) (default [] (isr state))
       then Some false
       else None
     else None)
  with
  | Some r => Some r
  | None =>
      if truthy dead_broker_ids && py_in leader dead_broker_ids then Some false
      else None
  end.

(** [json.loads(node[0].decode('utf-8'))] *)
Definition json_loads (n : ZNode) : M PartitionState :=
  match znode_state n with
  | Some state => ret state
  | None => raise ValueError
  end.

(** The body of the inner [for] loop: one partition of [topic]. *)
Definition partition_loop_body (active_broker_ids dead_broker_ids : option (list string))
    (topic partition : string) : M (option bool) :=
  let* n := exhibitor_get ("/brokers/topics/" +:+ topic +:+ "/partitions/"
                           +:+ partition +:+ "/state") in
  let* state := json_loads n in
  ret (partition_verdict active_broker_ids dead_broker_ids state).

(** The body of the outer [for] loop: one topic. *)
Definition topic_loop_body (active_broker_ids dead_broker_ids : option (list string))
    (topic : string) : M (option bool) :=
  let* partitions :=
    exhibitor_get_children ("/brokers/topics/" +:+ topic +:+ "/partitions") in
  for_each (partition_loop_body active_broker_ids dead_broker_ids topic) partitions.

Definition _is_leadership_transferred (active_broker_ids dead_broker_ids : option (list string))
    : M bool :=
  let* clean := _is_clean_election in
  if clean then
    let* topics := exhibitor_get_children "/brokers/topics" in
    let* r := for_each (topic_loop_body active_broker_ids dead_broker_ids) topics in
    match r with
    | Some b => ret b
    | None => ret true
    end
  else ret true.

Definition has_leadership (self : BrokerManager) : M bool :=
  let* broker_id := get_broker_id (id_manager self) in
  match broker_id with
  | None => ret false
  | Some EmptyString => ret false
  | Some id_ =>
      let* r := _is_leadership_transferred None (Some [id_]) in
      ret (negb r)
  end.

Definition _terminate_process : M unit := fun w =>
  match process w with
  | Some p =>
      try_finally
        (try_except
           (let* _ := process_terminate p in process_wait p)
           (fun _ => ret tt))
        (fun w' => (Ok tt, set_process None w')) w
  | None => (Ok tt, w)
  end.

Definition _wait_for_zk_absence (self : BrokerManager) (fuel : nat) : M unit :=
  try_except (wait_for_broker_id_absence (id_manager self) fuel) (fun _ => ret tt).

Definition stop_kafka_process (self : BrokerManager) (fuel : nat) : M unit :=
  let* _ := _terminate_process in
  _wait_for_zk_absence self fuel.

Definition get_zk_connect_string : M (option string) :=
  get_property "zookeeper.connect".

Definition _open_process (self : BrokerManager) : M Process :=
  subprocess_Popen [kafka_dir self +:+ "/bin/kafka-server-start.sh"; settings_file self].

(** The statements of [start_kafka_process] below the safety gate. *)
Definition start_after_gate (self : BrokerManager) (zookeeper_address : string)
    (fuel : nat) : M unit :=
  let* broker_id := get_broker_id (id_manager self) in
  let* _ := match broker_id with
            | Some id_ => set_property "broker.id" id_
            | None => delete_property "broker.id"
            end in
  let* _ := set_property "zookeeper.connect" zookeeper_address in
  let* _ := dump in
  let* p := _open_process self in
  let* _ := (fun w' => (Ok tt, set_process (Some p) w')) in
  let* timeout := (fun w' => (Ok (wait_timeout w'), w')) in
  let* present := wait_for_broker_id_presence (id_manager self) timeout fuel in
  if negb present
  then fun w' => (Ok tt, set_wait_timeout (wait_timeout w' + 60)%nat w')
  else ret tt.

Definition start_kafka_process (self : BrokerManager) (zookeeper_address : string)
    (fuel : nat) : M unit := fun w =>
  match process w with
  | Some _ => (Ok tt, w)
  | None =>
      (let* ids := exhibitor_get_children "/brokers/ids" in
       let* transferred := _is_leadership_transferred (Some ids) None in
       if negb transferred then raise LeaderElectionInProgress
       else start_after_gate self zookeeper_address fuel) w
  end.

(** ** Definitions used to state the properties *)

(** [sep] does not occur in [s]. *)
Fixpoint no_char (sep : ascii) (s : string) : bool :=
  match s with
  | EmptyString => true
  | String c r => negb (Ascii.eqb c sep) && no_char sep r
  end.

(** The identity the address-derived resolver takes for an address: the
    first component of the hash, when there is one. *)
Definition derive_identity (a : IPv4) : option string :=
  match _create_rfc1918_address_hash (dotted a) with
  | Ok (Some (broker_id, _)) => Some broker_id
  | _ => None
  end.

(** [a] and [b] lie in the same blocks. *)
Definition same_block (a b : IPv4) : Prop :=
  net10 a = net10 b /\ net172 a = net172 b /\ net192 a = net192 b.

(** A world in which nothing has happened yet: an empty coordination tree,
    no files, an empty configuration, no process. *)
Definition idle_world : World :=
  mkWorld (fun _ => Some ∅) (fun _ => ∅) (fun _ => Some (mkProcess 1 false false))
          0 ∅ None None 300 [].

(** Reads of the coordination tree, and the events of a polling loop. *)
Definition is_zk_read (e : Event) : bool :=
  match e with
  | ZkGetChildren _ | ZkGet _ => true
  | _ => false
  end.

Definition is_poll (e : Event) : bool :=
  match e with
  | ZkGet _ | Sleep _ => true
  | _ => false
  end.

(** [w'] is [w] after some reads of the coordination tree and nothing
    else: same configuration, same persisted file, same process handle and
    timeout, same clock. *)
Definition only_reads (w w' : World) : Prop :=
  exists evs, w' = set_trace (trace w ++ evs) w /\ forallb is_zk_read evs = true.

(** [w'] is [w] after some polls (reads of [/brokers/ids/...] and sleeps):
    only the clock and the trace have moved. *)
Definition only_polls (w w' : World) : Prop :=
  exists evs t, w' = set_clock t (set_trace (trace w ++ evs) w) /\
                forallb is_poll evs = true.

Definition clean_election (w : World) : Prop :=
  props w !! "unclean.leader.election.enable" = Some "false".

(** The partition state records of a tree, in the order the scan of
    [_is_leadership_transferred] reads them; [None] when a node the scan
    needs is absent or does not hold a state record. *)
Fixpoint states_of (tree : gmap string ZNode) (topic : string) (partitions : list string)
    : option (list PartitionState) :=
  match partitions with
  | [] => Some []
  | partition :: r =>
      match tree !! ("/brokers/topics/" +:+ topic +:+ "/partitions/" +:+ partition +:+ "/state") with
      | Some n =>
          match znode_state n, states_of tree topic r with
          | Some st, Some l => Some (st :: l)
          | _, _ => None
          end
      | None => None
      end
  end.

Fixpoint states_of_topics (tree : gmap string ZNode) (topics : list string)
    : option (list PartitionState) :=
  match topics with
  | [] => Some []
  | topic :: r =>
      match tree !! ("/brokers/topics/" +:+ topic +:+ "/partitions") with
      | Some np =>
          match states_of tree topic (znode_children np), states_of_topics tree r with
          | Some l1, Some l2 => Some (l1 ++ l2)%list
          | _, _ => None
          end
      | None => None
      end
  end.

Definition tree_states (tree : gmap string ZNode) : option (list PartitionState) :=
  match tree !! "/brokers/topics" with
  | Some nt => states_of_topics tree (znode_children nt)
  | None => None
  end.

(** The first verdict a list of states gives, if any. *)
Fixpoint scan (active dead : option (list string)) (sts : list PartitionState) : option bool :=
  match sts with
  | [] => None
  | st :: r =>
      match partition_verdict active dead st with
      | Some b => Some b
      | None => scan active dead r
      end
  end.

(** The two situations the safety check looks for in a partition. *)
Definition inactive_leader_active_isr (active : list string) (st : PartitionState) : Prop :=
(py_str (leader st) ∉ active) /\
  exists x, x ∈ default [] (isr st) /\ py_str x ∈ active.

Definition dead_leader (dead : option (list string)) (st : PartitionState) : Prop :=
  exists l, dead = Some l /\ py_str (leader st) ∈ l.

(** The tree of the worked example: topic T1 with partition 0
    (leader 1, isr 1 and 2) and partition 1 (leader 3, isr 3). *)
Definition example_tree : gmap string ZNode :=
  list_to_map
    [ ("/brokers/topics", mkNode None (Some 0) ["T1"]);
      ("/brokers/topics/T1/partitions", mkNode None (Some 0) ["0"; "1"]);
      ("/brokers/topics/T1/partitions/0/state",
       mkNode (Some (mkState 1 (Some [1; 2]))) (Some 0) []);
      ("/brokers/topics/T1/partitions/1/state",
       mkNode (Some (mkState 3 (Some [3]))) (Some 0) []);
      ("/brokers/ids", mkNode None (Some 0) ["1"; "2"]);
      ("/brokers/ids/1", mkNode None (Some 0) []);
      ("/brokers/ids/2", mkNode None (Some 0) []) ].

(** A stopped controller in front of that tree, clean election configured. *)
Definition example_world : World :=
  mkWorld (fun _ => Some example_tree) (fun _ => ∅) (fun _ => Some (mkProcess 1 false false))
          0 {[ "unclean.leader.election.enable" := "false" ]} None None 300 [].

(** A computation that, whatever its outcome, only reads the tree. *)
Definition reads {A} (m : M A) : Prop :=
  forall w, only_reads w (snd (m w)).

(** A computation that, whatever its outcome, only polls. *)
Definition polls {A} (m : M A) : Prop :=
  forall w, only_polls w (snd (m w)).

(** The example tree after broker 2 has caught up on partition 1 while
    broker 3, still its leader, is gone from [/brokers/ids]. *)
Definition electing_tree : gmap string ZNode :=
  <[ "/brokers/topics/T1/partitions/1/state" :=
       mkNode (Some (mkState 3 (Some [3; 2]))) (Some 0) [] ]> example_tree.

Definition electing_world : World :=
  mkWorld (fun _ => Some electing_tree) (fun _ => ∅) (fun _ => Some (mkProcess 1 false false))
          0 {[ "unclean.leader.election.enable" := "false" ]} None None 300 [].

(** The example world with unclean election allowed. *)
Definition unclean_world : World :=
  set_props {[ "unclean.leader.election.enable" := "true" ]} example_world.

(** The example world with a broker process already held. *)
Definition running_world : World :=
  set_process (Some (mkProcess 7 false false)) example_world.

(** A controller for the broker at 10.0.0.3 (identity 16777219). *)
Definition example_manager : BrokerManager :=
  mkBrokerManager "/opt/kafka" (BrokerIDByIp "16777219") "/opt/kafka/config/server.properties".

(** A controller whose broker has identity 3, the leader of partition 1. *)
Definition leader_manager : BrokerManager :=
  mkBrokerManager "/opt/kafka" (BrokerIDByIp "3") "/opt/kafka/config/server.properties".

(** The example world with the election property spelled ['False']. *)
Definition capital_false_world : World :=
  set_props {[ "unclean.leader.election.enable" := "False" ]} example_world.

(** The identity a poll of [is_registered] looks up, if any: the resolver's
    own for the address-derived resolver, the first [broker.id=...] of the
    meta file for the delegated one. *)
Fixpoint first_broker_id (lines : list string) : option string :=
  match lines with
  | [] => None
  | line :: r =>
      match re_search_broker_id line with
      | Some id_ => Some id_
      | None => first_broker_id r
      end
  end.

Definition polled_identity (idm : BrokerIdGenerator) (w : World) : option string :=
  match idm with
  | BrokerIDByIp broker_id => Some broker_id
  | BrokerIdAutoAssign =>
      match fs_at w (clock w) !! (format_opt (props w !! "log.dirs") +:+ "/meta.properties") with
      | Some lines => first_broker_id lines
      | None => None
      end
  end.

(** The answer of a poll and the events it leaves; both depend on the
    world only through the clock, the environment and the configuration. *)
Definition registered_now (idm : BrokerIdGenerator) (w : World) : Res bool :=
  match polled_identity idm w with
  | None => Ok false
  | Some id_ =>
      match zk_at w (clock w) with
      | None => Raise ConnectionLoss
      | Some tree =>
          match tree !! ("/brokers/ids/" +:+ id_) with
          | Some n => Ok (bool_decide (is_Some (znode_stat n)))
          | None => Ok false
          end
      end
  end.

Definition registration_events (idm : BrokerIdGenerator) (w : World) : list Event :=
  match polled_identity idm w with
  | None => []
  | Some id_ => [ZkGet ("/brokers/ids/" +:+ id_)]
  end.

(** Seconds slept in a trace. *)
Fixpoint slept (evs : list Event) : nat :=
  match evs with
  | [] => 0%nat
  | Sleep n :: r => (n + slept r)%nat
  | _ :: r => slept r
  end.

(** A stopped controller whose identity is still registered during the
    first two seconds (the session of the broker that died has not expired
    yet) and gone afterwards. *)
Definition lingering_world : World :=
  mkWorld (fun t => if (t <? 2)%nat
                    then Some (<[ "/brokers/ids/16777219" := mkNode None (Some 0) [] ]> example_tree)
                    else Some example_tree)
          (fun _ => ∅) (fun _ => Some (mkProcess 1 false false))
          0 {[ "unclean.leader.election.enable" := "false" ]} None None 300 [].

(** ** Further definitions used to state properties *)




(** What [_terminate_process] does to a held process: [terminate()], and
    [wait()] unless [terminate()] raised. *)
Definition terminate_events (p : Process) : list Event :=
  Terminate (pid p) :: if terminate_raises p then [] else [Wait (pid p)].

Definition held_events (w : World) : list Event :=
  match process w with
  | Some p => terminate_events p
  | None => []
  end.

(** The example world while the coordination service cannot be reached. *)
Definition unreachable_world : World :=
  mkWorld (fun _ => None) (fun _ => ∅) (fun _ => Some (mkProcess 1 false false))
          0 {[ "unclean.leader.election.enable" := "false" ]} None None 300 [].

(** The settings [start_kafka_process] leaves in the configuration object
    when it starts from [settings]: [broker.id] is the resolver's identity,
    or is removed when the resolver has none, and [zookeeper.connect] is the
    address given. *)
Definition start_settings (self : BrokerManager) (zookeeper_address : string)
    (settings : gmap string string) : gmap string string :=
  <[ "zookeeper.connect" := zookeeper_address ]>
    (match id_manager self with
     | BrokerIDByIp broker_id => <[ "broker.id" := broker_id ]> settings
     | BrokerIdAutoAssign => delete "broker.id" settings
     end).

(** The command line of the broker process. *)
Definition start_command (self : BrokerManager) : list string :=
  [kafka_dir self +:+ "/bin/kafka-server-start.sh"; settings_file self].

(** What [start_kafka_process] does, in order, between the safety gate and
    the wait for the registration. *)
Definition start_events (self : BrokerManager) (zookeeper_address : string)
    (settings : gmap string string) : list Event :=
  [ match id_manager self with
    | BrokerIDByIp broker_id => SetProperty "broker.id" broker_id
    | BrokerIdAutoAssign => DeleteProperty "broker.id"
    end;
    SetProperty "zookeeper.connect" zookeeper_address;
    Dump (start_settings self zookeeper_address settings);
    Popen (start_command self) ].

(** The world once the configuration is written; [launched] is that world
    with the broker process [p] held. *)
Definition configured (self : BrokerManager) (zookeeper_address : string) (w : World) : World :=
  set_persisted (Some (start_settings self zookeeper_address (props w)))
    (set_props (start_settings self zookeeper_address (props w))
       (set_trace (trace w ++ start_events self zookeeper_address (props w)) w)).

Definition launched (self : BrokerManager) (zookeeper_address : string) (p : Process)
    (w : World) : World :=
  set_process (Some p) (configured self zookeeper_address w).

(** The last statements of [start_kafka_process]: the wait for the
    registration and the longer timeout after a wait that failed. *)
Definition await_registration (self : BrokerManager) (fuel : nat) : M unit :=
  let* timeout := (fun w' => (Ok (wait_timeout w'), w')) in
  let* present := wait_for_broker_id_presence (id_manager self) timeout fuel in
  if negb present
  then fun w' => (Ok tt, set_wait_timeout (wait_timeout w' + 60)%nat w')
  else ret tt.

(** The example world on a machine where the broker's start script cannot
    be executed. *)
Definition no_launcher_world : World :=
  mkWorld (fun _ => Some example_tree) (fun _ => ∅) (fun _ => None)
          0 {[ "unclean.leader.election.enable" := "false" ]} None None 300 [].

(** The example world with a timeout of one second. *)
Definition impatient_world : World := set_wait_timeout 1 example_world.



(** ** [cli.py]: the table printer

    Strings are read as sequences of characters with code points below
    256, so that [String.length] is [len] and [String.compare] is the order
    [sorted] uses on [str]. *)

(** The values the commands put in the rows of a table: [None], booleans,
    integers and strings. *)
Inductive PyVal : Type :=
| PyNone
| PyBool (b : bool)
| PyInt (z : Z)
| PyStr (s : string).

(** [str(v)] *)
Definition str_of (v : PyVal) : string :=
  match v with
  | PyNone => "None"
  | PyBool true => "True"
  | PyBool false => "False"
  | PyInt z => py_str z
  | PyStr s => s
  end.

(** A row of a table: a [dict] with [str] keys.  The printer never depends
    on the order of its items. *)
Abbreviation Row := (gmap string PyVal).

(** [sorted(set(l))]: the distinct elements of [l] in ascending order. *)
Fixpoint insert_name (n : string) (l : list string) : list string :=
  match l with
  | [] => [n]
  | m :: r =>
      match String.compare n m with
      | Lt => n :: l
      | Eq => l
      | Gt => m :: insert_name n r
      end
  end.

Definition sorted_set (l : list string) : list string := foldr insert_name [] l.

(** [sum([list(k.keys()) for k in table], [])] *)
Definition all_keys (table : list Row) : list string :=
  concat (map (fun k : Row => (map_to_list k).*1) table).

(** [{n: len(n) for n in names}] *)
Definition initial_lengths (names : list string) : gmap string nat :=
  list_to_map (map (fun n => (n, String.length n)) names).

(** The body of the inner loop over [d.items()]:
    [if lengths[k] < len(str(v)): lengths[k] = len(str(v))].  Every key of
    a row is among the names, so [lengths[k]] is always there. *)
Definition widen (lengths : gmap string nat) (kv : string * PyVal) : gmap string nat :=
  match lengths !! kv.1 with
  | Some l =>
      if (l <? String.length (str_of kv.2))%nat
      then <[ kv.1 := String.length (str_of kv.2) ]> lengths
      else lengths
  | None => lengths
  end.

Definition lengths_of (table : list Row) (names : list string) : gmap string nat :=
  foldl (fun lengths (d : Row) => foldl widen lengths (map_to_list d))
        (initial_lengths names) table.

Fixpoint spaces (n : nat) : string :=
  match n with
  | O => EmptyString
  | S k => String " " (spaces k)
  end.

(** ['{!s:<width>s}'.format(s)] for a string: [s] followed by the spaces it
    lacks to be [width] characters long; a longer [s] is not cut.  (A width
    of 0, which only a column named by the empty string can have, is
    formatted as Python 3.10 and later do.) *)
Definition format_field (width : nat) (s : string) : string :=
  s +:+ spaces (width - String.length s).

(** [sep.join(l)] *)
Fixpoint py_join (sep : string) (l : list string) : string :=
  match l with
  | [] => EmptyString
  | [x] => x
  | x :: r => x +:+ sep +:+ py_join sep r
  end.

(** [format_string.format] applied to the cells, the format string being
    one field per name, two spaces apart. *)
Definition format_line (lengths : gmap string nat) (names cells : list string) : string :=
  py_join "  " (zip_with (fun n c => format_field (default 0%nat (lengths !! n)) c) names cells).

(** [item.get(n, '')], formatted with [!s]. *)
Definition cell (item : Row) (n : string) : string :=
  match item !! n with
  | Some v => str_of v
  | None => EmptyString
  end.

(** [_print_table(table, print_function)]: the lines handed to
    [print_function], in order. *)
Definition _print_table (table : list Row) : list string :=
  let names := sorted_set (all_keys table) in
  let lengths := lengths_of table names in
  format_line lengths names names
    :: map (fun item : Row => format_line lengths names (map (cell item) names)) table.

(** The width of a column as a number: the longest of the name and of the
    values the rows have under it. *)
Definition column_width (table : list Row) (n : string) : nat :=
  foldl (fun acc (d : Row) => Nat.max acc (String.length (cell d n))) (String.length n) table.

(** The rows of [actions list] for two brokers, one idle and one with an
    error. *)
Definition example_table : list Row :=
  [ {[ "_broker_id" := PyStr "1"; "_broker_address" := PyStr "10.0.0.1";
       "type" := PyNone; "description" := PyNone; "running" := PyNone ]};
    {[ "_broker_id" := PyStr "16777219"; "_broker_address" := PyStr "10.0.0.3";
       "error" := PyStr "busy" ]} ].

(** The example world in which the identity 16777219 is registered and
    stays so: a broker that is up, or one whose session never expires. *)
Definition registered_world : World :=
  mkWorld (fun _ => Some (<[ "/brokers/ids/16777219" := mkNode None (Some 0) [] ]> example_tree))
          (fun _ => ∅) (fun _ => Some (mkProcess 1 false false))
          0 {[ "unclean.leader.election.enable" := "false" ]} None None 300 [].

(** * Properties *)

(** ** Strings of octets *)

Lemma py_split_nonempty sep s : py_split sep s <> [].
Proof.
  destruct s as [|c r]; simpl; [discriminate|].
  destruct (Ascii.eqb c sep); [discriminate|].
  destruct (py_split sep r); discriminate.
Qed.

Lemma py_split_no_sep sep s : no_char sep s = true -> py_split sep s = [s].
Proof.
  induction s as [|c r IH]; simpl; [reflexivity|].
  intros [Hc Hr]%andb_prop. apply negb_true_iff in Hc. rewrite Hc.
  rewrite (IH Hr). reflexivity.
Qed.

Lemma py_split_app sep s r :
  no_char sep s = true ->
  py_split sep (s +:+ String sep r) = s :: py_split sep r.
Proof.
  induction s as [|c s IH]; simpl.
  - intros _. rewrite Ascii.eqb_refl. reflexivity.
  - intros [Hc Hs]%andb_prop. apply negb_true_iff in Hc. rewrite Hc.
    rewrite (IH Hs). reflexivity.
Qed.

(** Every octet is one of 256 values, so a decidable property of octets is
    settled by running it on all of them. *)
Lemma octet_cases (P : Z -> bool) :
  forallb (fun n => P (Z.of_nat n)) (seq 0 256) = true ->
  forall x, is_octet x = true -> P x = true.
Proof.
  intros Hall x Hx. unfold is_octet in Hx.
  apply andb_prop in Hx as [H0 H1].
  apply Z.leb_le in H0. apply Z.ltb_lt in H1.
  rewrite forallb_forall in Hall.
  specialize (Hall (Z.to_nat x)).
  rewrite Z2Nat.id in Hall by assumption.
  apply Hall. apply in_seq. lia.
Qed.

Lemma octet_str_no_dot x : is_octet x = true -> no_char "." (py_str x) = true.
Proof. apply (octet_cases (fun x => no_char "." (py_str x))). vm_compute. reflexivity. Qed.

Lemma octet_int_str x : is_octet x = true -> py_int (py_str x) = Ok x.
Proof.
  intros Hx.
  assert (H : (match py_int (py_str x) with Ok y => y =? x | _ => false end) = true).
  { revert x Hx.
    apply (octet_cases (fun x => match py_int (py_str x) with Ok y => y =? x | _ => false end)).
    vm_compute. reflexivity. }
  destruct (py_int (py_str x)); try discriminate.
  apply Z.eqb_eq in H. subst. reflexivity.
Qed.

Lemma octet_land_240 x :
  is_octet x = true -> (Z.land x 240 =? 16) = (x / 16 =? 1).
Proof.
  intros Hx.
  assert (H : Bool.eqb (Z.land x 240 =? 16) (x / 16 =? 1) = true).
  { revert x Hx.
    apply (octet_cases (fun x => Bool.eqb (Z.land x 240 =? 16) (x / 16 =? 1))).
    vm_compute. reflexivity. }
  apply eqb_prop in H. exact H.
Qed.

Lemma valid_ipv4_octets a :
  valid_ipv4 a = true ->
  is_octet (o1 a) = true /\ is_octet (o2 a) = true /\
  is_octet (o3 a) = true /\ is_octet (o4 a) = true.
Proof.
  unfold valid_ipv4. rewrite !andb_true_iff. tauto.
Qed.

Lemma is_octet_bounds x : is_octet x = true -> 0 <= x < 256.
Proof. unfold is_octet. intros [? ?]%andb_prop. lia. Qed.

Lemma split_dotted a :
  valid_ipv4 a = true ->
  py_map py_int (py_split "." (dotted a)) = Ok [o1 a; o2 a; o3 a; o4 a].
Proof.
  intros (H1 & H2 & H3 & H4)%valid_ipv4_octets.
  change (dotted a) with
    (py_str (o1 a) +:+ String "." (py_str (o2 a) +:+ String "."
       (py_str (o3 a) +:+ String "." (py_str (o4 a))))).
  rewrite !py_split_app by (apply octet_str_no_dot; assumption).
  rewrite py_split_no_sep by (apply octet_str_no_dot; assumption).
  simpl. rewrite !octet_int_str by assumption. reflexivity.
Qed.

(** ** The RFC1918 blocks, octet by octet *)

Lemma net10_octets a :
  valid_ipv4 a = true -> net10 a = (o1 a =? 10).
Proof.
  intros (H1 & H2 & H3 & H4)%valid_ipv4_octets.
  apply is_octet_bounds in H1, H2, H3, H4.
  unfold net10, in_cidr. change (32 - 8) with 24.
  rewrite !Z.shiftr_div_pow2 by lia. change (2 ^ 24) with 16777216.
  unfold ipv4_to_Z; simpl o1; simpl o2; simpl o3; simpl o4.
  replace ((((o1 a * 256 + o2 a) * 256 + o3 a) * 256 + o4 a) / 16777216) with (o1 a).
  - reflexivity.
  - apply Z.div_unique with (r := (o2 a * 256 + o3 a) * 256 + o4 a); lia.
Qed.

Lemma net192_octets a :
  valid_ipv4 a = true -> net192 a = (o1 a =? 192) && (o2 a =? 168).
Proof.
  intros (H1 & H2 & H3 & H4)%valid_ipv4_octets.
  apply is_octet_bounds in H1, H2, H3, H4.
  unfold net192, in_cidr. change (32 - 16) with 16.
  rewrite !Z.shiftr_div_pow2 by lia. change (2 ^ 16) with 65536.
  unfold ipv4_to_Z; simpl o1; simpl o2; simpl o3; simpl o4.
  replace ((((o1 a * 256 + o2 a) * 256 + o3 a) * 256 + o4 a) / 65536)
    with (o1 a * 256 + o2 a)
    by (apply Z.div_unique with (r := o3 a * 256 + o4 a); lia).
  change ((((192 * 256 + 168) * 256 + 0) * 256 + 0) / 65536) with 49320.
  destruct (o1 a =? 192) eqn:E1; destruct (o2 a =? 168) eqn:E2; simpl;
    [apply Z.eqb_eq | apply Z.eqb_neq ..]; lia.
Qed.

Lemma net172_octets a :
  valid_ipv4 a = true -> net172 a = (o1 a =? 172) && (Z.land (o2 a) 240 =? 16).
Proof.
  intros (H1 & H2 & H3 & H4)%valid_ipv4_octets.
  rewrite (octet_land_240 _ H2).
  apply is_octet_bounds in H1, H2, H3, H4.
  unfold net172, in_cidr. change (32 - 12) with 20.
  rewrite !Z.shiftr_div_pow2 by lia. change (2 ^ 20) with 1048576.
  unfold ipv4_to_Z; simpl o1; simpl o2; simpl o3; simpl o4.
  pose proof (Z.div_mod (o2 a) 16 ltac:(lia)) as Hdm.
  pose proof (Z.mod_pos_bound (o2 a) 16 ltac:(lia)) as Hm.
  assert (Hq : 0 <= o2 a / 16 < 16).
  { split; [apply Z.div_pos; lia | apply Z.div_lt_upper_bound; lia]. }
  replace ((((o1 a * 256 + o2 a) * 256 + o3 a) * 256 + o4 a) / 1048576)
    with (o1 a * 16 + o2 a / 16)
    by (apply Z.div_unique with (r := ((o2 a mod 16) * 256 + o3 a) * 256 + o4 a); lia).
  change ((((172 * 256 + 16) * 256 + 0) * 256 + 0) / 1048576) with 2753.
  destruct (o1 a =? 172) eqn:E1; destruct (o2 a / 16 =? 1) eqn:E2; simpl;
    [apply Z.eqb_eq | apply Z.eqb_neq ..]; lia.
Qed.

(** The three blocks do not overlap. *)
Lemma blocks_exclusive a :
  valid_ipv4 a = true ->
  (net10 a = true -> net172 a = false /\ net192 a = false) /\
  (net192 a = true -> net172 a = false).
Proof.
  intros Hv. rewrite (net10_octets a Hv), (net192_octets a Hv), (net172_octets a Hv).
  destruct (o1 a =? 10) eqn:E10; destruct (o1 a =? 192) eqn:E192;
    destruct (o1 a =? 172) eqn:E172; simpl; try lia; auto;
    try (split; [intros; split; reflexivity || discriminate | intros; try reflexivity; try discriminate]).
  all: try (split; intros; try discriminate; auto).
Qed.

(** What the hash computes on a well-formed address. *)
Lemma hash_dotted a :
  valid_ipv4 a = true ->
  _create_rfc1918_address_hash (dotted a) =
  if rfc1918 a then Ok (Some (py_str (derived_value a), py_str reserved_max_id))
  else Ok None.
Proof.
  intros Hv. unfold _create_rfc1918_address_hash.
  rewrite (split_dotted a Hv). cbn [res_bind py_index lookup list_lookup].
  unfold rfc1918, derived_value, discriminator.
  rewrite (net10_octets a Hv), (net192_octets a Hv), (net172_octets a Hv).
  destruct (o1 a =? 10) eqn:E10.
  { reflexivity. }
  destruct (o1 a =? 192) eqn:E192; cbn [res_bind py_index lookup list_lookup andb orb].
  { destruct (o2 a =? 168) eqn:E168; cbn [res_bind andb orb].
    - rewrite orb_true_r. reflexivity.
    - destruct (o1 a =? 172) eqn:E172; [apply Z.eqb_eq in E192, E172; lia|].
      reflexivity. }
  destruct (o1 a =? 172) eqn:E172; cbn [res_bind py_index lookup list_lookup andb orb].
  { destruct (Z.land (o2 a) 240 =? 16); reflexivity. }
  reflexivity.
Qed.

(** ** The derived identity *)

Lemma block_cases a :
  valid_ipv4 a = true -> rfc1918 a = true ->
  (o1 a = 10 /\ net10 a = true /\ net172 a = false /\ net192 a = false) \/
  (o1 a = 192 /\ o2 a = 168 /\ net10 a = false /\ net172 a = false /\ net192 a = true) \/
  (o1 a = 172 /\ 16 <= o2 a <= 31 /\ net10 a = false /\ net172 a = true /\ net192 a = false).
Proof.
  intros Hv. unfold rfc1918.
  rewrite (net10_octets a Hv), (net192_octets a Hv), (net172_octets a Hv).
  destruct (valid_ipv4_octets a Hv) as (_ & H2 & _ & _).
  rewrite (octet_land_240 _ H2).
  destruct (Z.eqb_spec (o1 a) 10); destruct (Z.eqb_spec (o1 a) 192);
    destruct (Z.eqb_spec (o1 a) 172); try lia; simpl.
  - destruct (o2 a / 16 =? 1) eqn:E; [|discriminate].
    apply Z.eqb_eq in E. intros _. right. right.
    repeat split; auto; Z.div_mod_to_equations; lia.
Qed.

Lemma derive_identity_value a :
  valid_ipv4 a = true -> rfc1918 a = true ->
  derive_identity a = Some (py_str (derived_value a)).
Proof.
  intros Hv Hr. unfold derive_identity. rewrite (hash_dotted a Hv), Hr. reflexivity.
Qed.

Lemma py_str_inj x y : py_str x = py_str y -> x = y.
Proof. unfold py_str. apply pretty_Z_inj. Qed.

Lemma ipv4_eq a b :
  o1 a = o1 b -> o2 a = o2 b -> o3 a = o3 b -> o4 a = o4 b -> a = b.
Proof. destruct a, b; simpl; intros; subst; reflexivity. Qed.

(** Inside the private blocks the folded value determines the block and
    the three low octets. *)
Lemma derived_value_inj a b :
  valid_ipv4 a = true -> valid_ipv4 b = true ->
  rfc1918 a = true -> rfc1918 b = true ->
  derived_value a = derived_value b ->
  a = b.
Proof.
  intros Hva Hvb Hra Hrb Heq.
  pose proof (block_cases a Hva Hra) as Ca.
  pose proof (block_cases b Hvb Hrb) as Cb.
  destruct (valid_ipv4_octets a Hva) as (A1 & A2 & A3 & A4).
  destruct (valid_ipv4_octets b Hvb) as (B1 & B2 & B3 & B4).
  apply is_octet_bounds in A1, A2, A3, A4, B1, B2, B3, B4.
  unfold derived_value, discriminator in Heq.
  destruct Ca as [(? & Ha10 & Ha172 & Ha192)|[(? & ? & Ha10 & Ha172 & Ha192)|(? & ? & Ha10 & Ha172 & Ha192)]];
  destruct Cb as [(? & Hb10 & Hb172 & Hb192)|[(? & ? & Hb10 & Hb172 & Hb192)|(? & ? & Hb10 & Hb172 & Hb192)]];
  rewrite Ha10, ?Ha192, Hb10, ?Hb192 in Heq;
  first [ apply ipv4_eq; lia | exfalso; lia ].
Qed.

(** C4: on the three RFC1918 blocks the derivation is a function of the
    address (the first octet replaced by the discriminator 1, 2 or 3 of its
    block, the four octets folded base 256), it is injective inside each
    block, and two addresses of different blocks never get the same
    identity. *)
Theorem derive_identity_injective_disjoint (a b : IPv4) :
  valid_ipv4 a = true -> valid_ipv4 b = true ->
  rfc1918 a = true -> rfc1918 b = true ->
  _create_rfc1918_address_hash (dotted a)
    = Ok (Some (py_str (((discriminator a * 256 + o2 a) * 256 + o3 a) * 256 + o4 a),
                py_str reserved_max_id)) /\
  (discriminator a = 1 /\ net10 a = true \/
   discriminator a = 2 /\ net192 a = true \/
   discriminator a = 3 /\ net172 a = true) /\
  (same_block a b -> derive_identity a = derive_identity b -> a = b) /\
  (~ same_block a b -> derive_identity a <> derive_identity b).
Proof.
  intros Hva Hvb Hra Hrb.
  rewrite (derive_identity_value a Hva Hra), (derive_identity_value b Hvb Hrb).
  split; [rewrite (hash_dotted a Hva), Hra; unfold derived_value; reflexivity|].
  split; [|split].
  - unfold discriminator.
    destruct (block_cases a Hva Hra)
      as [(? & -> & ? & ->)|[(? & ? & -> & ? & ->)|(? & ? & -> & -> & ->)]]; auto.
  - intros _ Heq. apply (inj Some) in Heq. apply py_str_inj in Heq.
    apply derived_value_inj; assumption.
  - intros Hnot Heq. apply Hnot.
    apply (inj Some) in Heq. apply py_str_inj in Heq.
    rewrite (derived_value_inj a b Hva Hvb Hra Hrb Heq).
    unfold same_block. auto.
Qed.

Lemma derive_identity_injective_disjoint_witness :
  _create_rfc1918_address_hash (dotted (mkIPv4 10 1 2 3))
    = Ok (Some (py_str 16843267, py_str reserved_max_id)) /\
  derive_identity (mkIPv4 10 1 2 3) <> derive_identity (mkIPv4 172 16 2 3).
Proof.
  destruct (derive_identity_injective_disjoint (mkIPv4 10 1 2 3) (mkIPv4 172 16 2 3))
    as (Hh & _ & _ & Hd); try reflexivity.
  split.
  - exact Hh.
  - apply Hd. intros (H & _). discriminate H.
Defined.

(** The 172.16.0.0/12 block lies entirely above the reserved maximum; the
    other two blocks lie below it. *)
Lemma derived_value_vs_reserved a :
  valid_ipv4 a = true -> rfc1918 a = true ->
  if net172 a then reserved_max_id < derived_value a
  else derived_value a <= reserved_max_id.
Proof.
  intros Hv Hr.
  destruct (valid_ipv4_octets a Hv) as (A1 & A2 & A3 & A4).
  apply is_octet_bounds in A1, A2, A3, A4.
  unfold derived_value, discriminator, reserved_max_id.
  destruct (block_cases a Hv Hr)
    as [(? & H10 & H172 & H192)|[(? & ? & H10 & H172 & H192)|(? & ? & H10 & H172 & H192)]];
    rewrite H10, H172, ?H192; lia.
Qed.

(** C5 (the code does not meet it): at 172.16.0.0 the derived identity is
    51380224, above the reserved maximum 3 * 256^3 + 1 = 50331649 that is
    returned next to it. *)
Theorem reserved_max_id_below_172_block :
  _create_rfc1918_address_hash "172.16.0.0"
    = Ok (Some (py_str 51380224, py_str reserved_max_id)) /\
  reserved_max_id = 3 * 256 ^ 3 + 1 /\
  reserved_max_id < 51380224.
Proof.
  split; [|split].
  - change "172.16.0.0" with (dotted (mkIPv4 172 16 0 0)).
    rewrite hash_dotted by reflexivity. reflexivity.
  - reflexivity.
  - reflexivity.
Qed.

(** ** Construction of the address-derived resolver *)

(** C6: for an IPv4 address outside the three private blocks the hash has
    no identity, the construction of the resolver raises, and the world,
    with the configuration store in it, is exactly as before: no property
    was set and nothing was written. *)
Theorem by_ip_init_outside_private_blocks (a : IPv4) (w : World) :
  valid_ipv4 a = true -> rfc1918 a = false ->
  _create_rfc1918_address_hash (dotted a) = Ok None /\
  BrokerIDByIp__init__ (dotted a) w = (Raise TypeError, w) /\
  get_broker_id_policy "ip" (dotted a) w = (Raise TypeError, w).
Proof.
  intros Hv Hr.
  assert (Hh : _create_rfc1918_address_hash (dotted a) = Ok None).
  { rewrite (hash_dotted a Hv), Hr. reflexivity. }
  assert (Hi : BrokerIDByIp__init__ (dotted a) w = (Raise TypeError, w)).
  { unfold BrokerIDByIp__init__, bind, lift. rewrite Hh. reflexivity. }
  split; [exact Hh|]. split; [exact Hi|].
  unfold get_broker_id_policy.
  change (String.eqb "ip" "ip") with true. cbv iota. exact Hi.
Qed.

Lemma by_ip_init_outside_private_blocks_witness :
  BrokerIDByIp__init__ (dotted (mkIPv4 8 8 8 8)) idle_world = (Raise TypeError, idle_world) /\
  props idle_world !! "reserved.broker.max.id" = None.
Proof.
  split.
  - apply (by_ip_init_outside_private_blocks (mkIPv4 8 8 8 8) idle_world); reflexivity.
  - reflexivity.
Defined.

(** ** Reads of the coordination tree *)

Lemma set_trace_id w : set_trace (trace w) w = w.
Proof. destruct w; reflexivity. Qed.

Lemma only_reads_refl w : only_reads w w.
Proof.
  exists []. split; [|reflexivity].
  rewrite app_nil_r. symmetry. apply set_trace_id.
Qed.

Lemma only_reads_trans w1 w2 w3 :
  only_reads w1 w2 -> only_reads w2 w3 -> only_reads w1 w3.
Proof.
  intros (e1 & -> & H1) (e2 & -> & H2).
  exists (e1 ++ e2)%list. split.
  - unfold set_trace. cbn [trace zk_at fs_at popen clock props persisted process wait_timeout].
    rewrite app_assoc. reflexivity.
  - rewrite forallb_app, H1, H2. reflexivity.
Qed.

Lemma only_reads_event w e :
  is_zk_read e = true -> only_reads w (set_trace (trace w ++ [e]) w).
Proof.
  intros He. exists [e]. split; [reflexivity|].
  cbn [forallb]. rewrite He. reflexivity.
Qed.

(** Reads leave everything but the trace as it was. *)
Lemma only_reads_frame w w' :
  only_reads w w' ->
  zk_at w' = zk_at w /\ fs_at w' = fs_at w /\ popen w' = popen w /\
  clock w' = clock w /\ props w' = props w /\ persisted w' = persisted w /\
  process w' = process w /\ wait_timeout w' = wait_timeout w.
Proof. intros (evs & -> & _). repeat split. Qed.

Lemma reads_ret {A} (a : A) : reads (ret a).
Proof. intros w. apply only_reads_refl. Qed.

Lemma reads_raise {A} e : reads (@raise A e).
Proof. intros w. apply only_reads_refl. Qed.

Lemma reads_bind {A B} (m : M A) (k : A -> M B) :
  reads m -> (forall a, reads (k a)) -> reads (bind m k).
Proof.
  intros Hm Hk w. unfold bind. specialize (Hm w).
  destruct (m w) as [[a|e|] w1]; cbn [snd] in *; try assumption.
  eapply only_reads_trans; [exact Hm|]. apply Hk.
Qed.

Lemma reads_try_except {A} (m : M A) (h : Exn -> M A) :
  reads m -> (forall e, reads (h e)) -> reads (try_except m h).
Proof.
  intros Hm Hh w. unfold try_except. specialize (Hm w).
  destruct (m w) as [[a|e|] w1]; cbn [snd] in *; try assumption.
  eapply only_reads_trans; [exact Hm|]. apply Hh.
Qed.

Lemma reads_for_each {A R} (body : A -> M (option R)) l :
  (forall x, reads (body x)) -> reads (for_each body l).
Proof.
  intros Hb. induction l as [|x l IH]; cbn [for_each].
  - apply reads_ret.
  - apply reads_bind; [apply Hb|]. intros [v|]; [apply reads_ret|exact IH].
Qed.

Lemma reads_emit e : is_zk_read e = true -> reads (emit e).
Proof. intros He w. apply only_reads_event, He. Qed.

Lemma reads_zk_lookup path : reads (zk_lookup path).
Proof.
  intros w. unfold zk_lookup.
  destruct (zk_at w (clock w)) as [tree|]; [|apply only_reads_refl].
  destruct (tree !! path); apply only_reads_refl.
Qed.

Lemma reads_exhibitor_get_children path : reads (exhibitor_get_children path).
Proof.
  unfold exhibitor_get_children.
  apply reads_bind; [apply reads_emit; reflexivity|]. intros _.
  apply reads_bind; [apply reads_zk_lookup|]. intros n. apply reads_ret.
Qed.

Lemma reads_exhibitor_get path : reads (exhibitor_get path).
Proof.
  unfold exhibitor_get.
  apply reads_bind; [apply reads_emit; reflexivity|]. intros _.
  apply reads_zk_lookup.
Qed.

Lemma reads_get_property name : reads (get_property name).
Proof. intros w. apply only_reads_refl. Qed.

Lemma reads_is_clean_election : reads _is_clean_election.
Proof.
  unfold _is_clean_election.
  apply reads_bind; [apply reads_get_property|]. intros v. apply reads_ret.
Qed.

Lemma reads_partition_loop_body a d topic partition :
  reads (partition_loop_body a d topic partition).
Proof.
  unfold partition_loop_body.
  apply reads_bind; [apply reads_exhibitor_get|]. intros n.
  apply reads_bind.
  - unfold json_loads. destruct (znode_state n); [apply reads_ret|apply reads_raise].
  - intros st. apply reads_ret.
Qed.

Lemma reads_topic_loop_body a d topic : reads (topic_loop_body a d topic).
Proof.
  unfold topic_loop_body.
  apply reads_bind; [apply reads_exhibitor_get_children|]. intros parts.
  apply reads_for_each. intros p. apply reads_partition_loop_body.
Qed.

(** The safety check, whatever it answers, only reads the tree. *)
Lemma reads_is_leadership_transferred a d : reads (_is_leadership_transferred a d).
Proof.
  unfold _is_leadership_transferred.
  apply reads_bind; [apply reads_is_clean_election|]. intros [|]; [|apply reads_ret].
  apply reads_bind; [apply reads_exhibitor_get_children|]. intros topics.
  apply reads_bind.
  - apply reads_for_each. intros t. apply reads_topic_loop_body.
  - intros [b|]; apply reads_ret.
Qed.

(** ** The scan over a well-formed tree *)

Lemma exhibitor_get_children_run w tree path n :
  zk_at w (clock w) = Some tree -> tree !! path = Some n ->
  exhibitor_get_children path w
  = (Ok (znode_children n), set_trace (trace w ++ [ZkGetChildren path]) w).
Proof.
  intros Hz Hn. unfold exhibitor_get_children, bind, emit, zk_lookup, ret.
  cbn [set_trace zk_at clock trace]. rewrite Hz, Hn. reflexivity.
Qed.

Lemma partition_loop_body_run w tree a d topic partition n st :
  zk_at w (clock w) = Some tree ->
  tree !! ("/brokers/topics/" +:+ topic +:+ "/partitions/" +:+ partition +:+ "/state")
    = Some n ->
  znode_state n = Some st ->
  partition_loop_body a d topic partition w
  = (Ok (partition_verdict a d st),
     set_trace (trace w ++ [ZkGet ("/brokers/topics/" +:+ topic +:+ "/partitions/"
                                   +:+ partition +:+ "/state")]) w).
Proof.
  intros Hz Hn Hs.
  unfold partition_loop_body, exhibitor_get, bind, emit, zk_lookup, json_loads, ret.
  cbn [set_trace zk_at clock trace]. rewrite Hz, Hn, Hs. reflexivity.
Qed.

Lemma partition_loop_run tree a d topic :
  forall partitions sts w,
  zk_at w (clock w) = Some tree ->
  states_of tree topic partitions = Some sts ->
  exists w', for_each (partition_loop_body a d topic) partitions w = (Ok (scan a d sts), w')
             /\ only_reads w w'.
Proof.
  induction partitions as [|p r IH]; intros sts w Hz Hs; cbn [states_of] in Hs.
  - apply (inj Some) in Hs. subst sts. exists w. split; [reflexivity|apply only_reads_refl].
  - destruct (tree !! _) as [n|] eqn:Hn; [|discriminate Hs].
    destruct (znode_state n) as [st|] eqn:Hst; [|discriminate Hs].
    destruct (states_of tree topic r) as [l|] eqn:Hl; [|discriminate Hs].
    apply (inj Some) in Hs. subst sts.
    cbn [for_each scan]. unfold bind at 1.
    rewrite (partition_loop_body_run w tree a d topic p n st Hz Hn Hst).
    destruct (partition_verdict a d st) as [b|].
    + eexists. split; [reflexivity|]. apply only_reads_event. reflexivity.
    + destruct (IH l (set_trace (trace w ++ [ZkGet ("/brokers/topics/" +:+ topic +:+
                  "/partitions/" +:+ p +:+ "/state")]) w) Hz eq_refl) as (w' & Hrun & Hr).
      exists w'. split; [exact Hrun|].
      eapply only_reads_trans; [|exact Hr]. apply only_reads_event. reflexivity.
Qed.

Lemma scan_app a d l1 l2 :
  scan a d (l1 ++ l2) = match scan a d l1 with Some b => Some b | None => scan a d l2 end.
Proof.
  induction l1 as [|st l1 IH]; cbn [scan app]; [reflexivity|].
  destruct (partition_verdict a d st); [reflexivity|exact IH].
Qed.

Lemma topic_loop_run tree a d :
  forall topics sts w,
  zk_at w (clock w) = Some tree ->
  states_of_topics tree topics = Some sts ->
  exists w', for_each (topic_loop_body a d) topics w = (Ok (scan a d sts), w')
             /\ only_reads w w'.
Proof.
  induction topics as [|t r IH]; intros sts w Hz Hs; cbn [states_of_topics] in Hs.
  - apply (inj Some) in Hs. subst sts. exists w. split; [reflexivity|apply only_reads_refl].
  - destruct (tree !! _) as [np|] eqn:Hn; [|discriminate Hs].
    destruct (states_of tree t (znode_children np)) as [l1|] eqn:H1; [|discriminate Hs].
    destruct (states_of_topics tree r) as [l2|] eqn:H2; [|discriminate Hs].
    apply (inj Some) in Hs. subst sts.
    cbn [for_each]. unfold bind at 1. unfold topic_loop_body at 1. unfold bind at 1.
    rewrite (exhibitor_get_children_run w tree _ np Hz Hn).
    destruct (partition_loop_run tree a d t (znode_children np) l1
                (set_trace (trace w ++ [ZkGetChildren ("/brokers/topics/" +:+ t +:+ "/partitions")]) w)
                Hz H1) as (w1 & Hrun1 & Hr1).
    rewrite Hrun1. rewrite scan_app.
    assert (Hw1 : only_reads w w1).
    { eapply only_reads_trans; [|exact Hr1]. apply only_reads_event. reflexivity. }
    destruct (scan a d l1) as [b|].
    + exists w1. split; [reflexivity|exact Hw1].
    + assert (Hz1 : zk_at w1 (clock w1) = Some tree).
      { destruct (only_reads_frame _ _ Hw1) as (-> & _ & _ & -> & _). exact Hz. }
      destruct (IH l2 w1 Hz1 eq_refl) as (w' & Hrun & Hr).
      exists w'. split; [exact Hrun|]. eapply only_reads_trans; eassumption.
Qed.

Lemma is_clean_election_run w :
  _is_clean_election w
  = (Ok (bool_decide (props w !! "unclean.leader.election.enable" = Some "false")), w).
Proof. reflexivity. Qed.

(** On a well-formed tree under clean election the check returns, and its
    answer is the first verdict of the scan, or safe when there is none. *)
Lemma leadership_transferred_run w tree sts a d :
  clean_election w ->
  zk_at w (clock w) = Some tree ->
  tree_states tree = Some sts ->
  exists w', _is_leadership_transferred a d w
             = (Ok (match scan a d sts with Some b => b | None => true end), w')
             /\ only_reads w w'.
Proof.
  intros Hc Hz Hs. unfold tree_states in Hs.
  destruct (tree !! "/brokers/topics") as [nt|] eqn:Hn; [|discriminate Hs].
  unfold _is_leadership_transferred. unfold bind at 1.
  rewrite is_clean_election_run. rewrite bool_decide_eq_true_2 by exact Hc.
  unfold bind at 1. rewrite (exhibitor_get_children_run w tree _ nt Hz Hn).
  destruct (topic_loop_run tree a d (znode_children nt) sts
              (set_trace (trace w ++ [ZkGetChildren "/brokers/topics"]) w) Hz Hs)
    as (w1 & Hrun & Hr).
  unfold bind. rewrite Hrun.
  exists w1. split.
  - destruct (scan a d sts); reflexivity.
  - eapply only_reads_trans; [|exact Hr]. apply only_reads_event. reflexivity.
Qed.

(** ** What a verdict means *)

Lemma py_in_Some x l : py_in x (Some l) = true <-> x ∈ l.
Proof. unfold py_in. apply bool_decide_eq_true. Qed.

Lemma truthy_py_in x (d : option (list string)) :
  truthy d && py_in x d = true <-> exists l, d = Some l /\ x ∈ l.
Proof.
  split.
  - intros [Ht Hx]%andb_prop. destruct d as [l|]; [|discriminate Ht].
    exists l. split; [reflexivity|]. apply py_in_Some, Hx.
  - intros (l & -> & Hx). apply py_in_Some in Hx as Hin.
    rewrite Hin, andb_true_r. destruct l; [inversion Hx|reflexivity].
Qed.

Lemma any_isr_active (active : list string) (st : PartitionState) :
  existsb (fun x => py_in (py_str x) (Some active)) (default [] (isr st)) = true
  <-> exists x, x ∈ default [] (isr st) /\ py_str x ∈ active.
Proof.
  rewrite existsb_exists. split.
  - intros (x & Hx & Hin). exists x. split; [apply list_elem_of_In, Hx|apply py_in_Some, Hin].
  - intros (x & Hx & Hin). exists x. split; [apply list_elem_of_In, Hx|apply py_in_Some, Hin].
Qed.

(** A verdict is never [return True]. *)
Lemma partition_verdict_not_true a d st : partition_verdict a d st <> Some true.
Proof.
  unfold partition_verdict.
  destruct (truthy a && negb (py_in (py_str (leader st)) a));
    [destruct (existsb _ _); [discriminate|]|];
    destruct (truthy d && py_in (py_str (leader st)) d); discriminate.
Qed.

(** The inner loop body returns [False] exactly in the two situations. *)
Lemma partition_verdict_false active d st :
  partition_verdict (Some active) d st = Some false
  <-> inactive_leader_active_isr active st \/ dead_leader d st.
Proof.
  unfold partition_verdict, inactive_leader_active_isr, dead_leader.
  rewrite <- truthy_py_in. rewrite <- any_isr_active.
  destruct (truthy d && py_in (py_str (leader st)) d) eqn:Hd.
  - split; [intros _; right; reflexivity|intros _].
    destruct (truthy (Some active) && negb (py_in (py_str (leader st)) (Some active)));
      [destruct (existsb _ _)|]; reflexivity.
  - destruct (truthy (Some active)) eqn:Ht; cbn [andb].
    + destruct (py_in (py_str (leader st)) (Some active)) eqn:Hl; cbn [negb].
      * split; [discriminate|]. intros [[Hn _]|H]; [|discriminate H].
        exfalso. apply Hn. apply py_in_Some, Hl.
      * destruct (existsb _ _) eqn:He.
        -- split; [intros _; left|reflexivity]. split; [|reflexivity].
           intros Hin. apply py_in_Some in Hin. congruence.
        -- split; [discriminate|]. intros [[_ H]|H]; discriminate H.
    + split; [discriminate|]. intros [[_ H]|H]; [|discriminate H].
      destruct active; [|discriminate Ht].
      apply any_isr_active in H. destruct H as (x & _ & Hx). inversion Hx.
Qed.

(** With no active list only the dead list counts. *)
Lemma partition_verdict_false_no_active d st :
  partition_verdict None d st = Some false <-> dead_leader d st.
Proof.
  unfold partition_verdict, dead_leader. rewrite <- truthy_py_in.
  cbn [truthy andb].
  destruct (truthy d && py_in (py_str (leader st)) d); split; congruence.
Qed.

Lemma scan_false a d sts :
  scan a d sts = Some false <-> exists st, st ∈ sts /\ partition_verdict a d st = Some false.
Proof.
  induction sts as [|st sts IH]; cbn [scan].
  - split; [discriminate|]. intros (st & Hin & _). inversion Hin.
  - destruct (partition_verdict a d st) as [[|]|] eqn:Hv.
    + exfalso. exact (partition_verdict_not_true _ _ _ Hv).
    + split; [intros _|reflexivity]. exists st. split; [left|exact Hv].
    + rewrite IH. split.
      * intros (st' & Hin & Hv'). exists st'. split; [right; exact Hin|exact Hv'].
      * intros (st' & Hin & Hv'). exists st'. split; [|exact Hv'].
        apply elem_of_cons in Hin as [->|Hin]; [congruence|exact Hin].
Qed.

Lemma scan_not_true a d sts : scan a d sts <> Some true.
Proof.
  induction sts as [|st sts IH]; cbn [scan]; [discriminate|].
  destruct (partition_verdict a d st) as [[|]|] eqn:Hv; try discriminate; [|exact IH].
  exfalso. exact (partition_verdict_not_true _ _ _ Hv).
Qed.

(** The answer of the check is unsafe exactly when some state gives
    [return False]. *)
Lemma scan_answer a d sts :
  match scan a d sts with Some b => b | None => true end = false
  <-> exists st, st ∈ sts /\ partition_verdict a d st = Some false.
Proof.
  rewrite <- scan_false.
  destruct (scan a d sts) as [[|]|] eqn:Hs; split; congruence.
Qed.

(** ** The leadership safety check *)

(** C1: under clean election, with an active list supplied, on a tree whose
    topics, partitions and states can all be read, the check returns a
    verdict; every partition whose leader is not active while a member of
    its isr is makes the verdict unsafe; for a partition whose leader is not
    active and none of whose isr members is, the active list gives no
    verdict (its loop body goes on as if no active list had been given, and
    with no dead list falls through to the next partition); altogether the
    verdict is unsafe exactly when some partition has an inactive leader
    with an active isr member, or a leader in the dead list.  On the worked
    example (T1/0: leader 1, isr 1 2; T1/1: leader 3, isr 3; active 1 and 2;
    no dead list) the check reads the four nodes and reports safe. *)
Theorem leadership_check_active_identities :
  (forall (w : World) (tree : gmap string ZNode) (sts : list PartitionState)
          (active : list string) (dead : option (list string)),
     clean_election w ->
     zk_at w (clock w) = Some tree ->
     tree_states tree = Some sts ->
     exists verdict w',
       _is_leadership_transferred (Some active) dead w = (Ok verdict, w') /\
       (forall st, st ∈ sts -> inactive_leader_active_isr active st -> verdict = false) /\
       (forall st,
          py_str (leader st) ∉ active ->
          (forall x, x ∈ default [] (isr st) -> py_str x ∉ active) ->
          partition_verdict (Some active) dead st = partition_verdict None dead st /\
          partition_verdict (Some active) None st = None) /\
       (verdict = false <->
        exists st, st ∈ sts /\ (inactive_leader_active_isr active st \/ dead_leader dead st)))
  /\
  tree_states example_tree = Some [mkState 1 (Some [1; 2]); mkState 3 (Some [3])] /\
  _is_leadership_transferred (Some ["1"; "2"]) None example_world
  = (Ok true,
     set_trace [ZkGetChildren "/brokers/topics";
                ZkGetChildren "/brokers/topics/T1/partitions";
                ZkGet "/brokers/topics/T1/partitions/0/state";
                ZkGet "/brokers/topics/T1/partitions/1/state"] example_world).
Proof.
  split; [|split; vm_compute; reflexivity].
  intros w tree sts active dead Hc Hz Hs.
  destruct (leadership_transferred_run w tree sts (Some active) dead Hc Hz Hs)
    as (w' & Hrun & _).
  eexists. exists w'. split; [exact Hrun|].
  assert (Hiff : match scan (Some active) dead sts with Some b => b | None => true end = false
                 <-> exists st, st ∈ sts /\
                       (inactive_leader_active_isr active st \/ dead_leader dead st)).
  { rewrite scan_answer. split.
    - intros (st & Hin & Hv). exists st. split; [exact Hin|].
      apply partition_verdict_false, Hv.
    - intros (st & Hin & Hv). exists st. split; [exact Hin|].
      apply partition_verdict_false, Hv. }
  split; [|split; [|exact Hiff]].
  - intros st Hin Hst. apply Hiff. exists st. split; [exact Hin|left; exact Hst].
  - intros st Hl Hisr.
    assert (He : existsb (fun x => py_in (py_str x) (Some active)) (default [] (isr st)) = false).
    { destruct (existsb _ _) eqn:He; [|reflexivity].
      apply any_isr_active in He as (x & Hx & Hin). destruct (Hisr x Hx Hin). }
    unfold partition_verdict. rewrite He.
    destruct (truthy (Some active) && negb (py_in (py_str (leader st)) (Some active)));
      cbn [truthy andb]; split; reflexivity.
Qed.

Lemma leadership_check_active_identities_witness :
  exists verdict w',
    _is_leadership_transferred (Some ["2"]) None electing_world = (Ok verdict, w') /\
    verdict = false.
Proof.
  destruct (proj1 leadership_check_active_identities electing_world electing_tree
              [mkState 1 (Some [1; 2]); mkState 3 (Some [3; 2])] ["2"] None)
    as (verdict & w' & Hrun & Hunsafe & _).
  - reflexivity.
  - reflexivity.
  - vm_compute. reflexivity.
  - exists verdict, w'. split; [exact Hrun|].
    apply (Hunsafe (mkState 3 (Some [3; 2]))).
    + right. left.
    + split.
      * intros Hin. apply py_in_Some in Hin. vm_compute in Hin. discriminate Hin.
      * exists 2. split; [right; left|]. apply py_in_Some. vm_compute. reflexivity.
Defined.

Lemma check_skipped_unless_clean (active dead : option (list string)) (w : World) :
  ~ clean_election w ->
  _is_leadership_transferred active dead w = (Ok true, w).
Proof.
  intros Hc. unfold _is_leadership_transferred, bind.
  rewrite is_clean_election_run. rewrite bool_decide_eq_false_2 by exact Hc.
  reflexivity.
Qed.

(** C3: when the configuration does not say clean election, the check
    answers safe for every active list, dead list and tree, and the world is
    untouched: nothing was read. *)
Theorem unclean_election_skips_check (active dead : option (list string)) (w : World) :
  ~ clean_election w ->
  _is_leadership_transferred active dead w = (Ok true, w).
Proof. apply check_skipped_unless_clean. Qed.

Lemma unclean_election_skips_check_witness :
  _is_leadership_transferred None (Some ["3"]) unclean_world = (Ok true, unclean_world) /\
  tree_states example_tree = Some [mkState 1 (Some [1; 2]); mkState 3 (Some [3])] /\
  trace unclean_world = [].
Proof.
  split; [|split; vm_compute; reflexivity].
  apply (unclean_election_skips_check None (Some ["3"]) unclean_world).
  unfold clean_election. vm_compute. discriminate.
Defined.

(** ** [has_leadership] *)

Lemma get_broker_id_run idm w :
  get_broker_id idm w
  = (Ok match idm with BrokerIDByIp broker_id => Some broker_id | BrokerIdAutoAssign => None end,
     w).
Proof. destruct idm; reflexivity. Qed.

(** C2: [has_leadership] answers false when the resolver knows no identity,
    which is always so for the delegated resolver; for a known identity it
    runs the safety check with no active list and the one-element dead list
    of that identity and negates its answer; so under clean election, on a
    readable tree, it answers true exactly when some partition state has
    this identity as leader. *)
Theorem has_leadership_spec (self : BrokerManager) (w : World) :
  (id_manager self = BrokerIdAutoAssign -> has_leadership self w = (Ok false, w)) /\
  (forall w', get_broker_id (id_manager self) w = (Ok None, w') ->
              has_leadership self w = (Ok false, w')) /\
  (forall id_ w',
     get_broker_id (id_manager self) w = (Ok (Some id_), w') -> id_ <> "" ->
     has_leadership self w
     = (match fst (_is_leadership_transferred None (Some [id_]) w') with
        | Ok transferred => Ok (negb transferred)
        | Raise e => Raise e
        | OutOfFuel => OutOfFuel
        end,
        snd (_is_leadership_transferred None (Some [id_]) w'))) /\
  (forall id_ tree sts,
     get_broker_id (id_manager self) w = (Ok (Some id_), w) -> id_ <> "" ->
     clean_election w ->
     zk_at w (clock w) = Some tree ->
     tree_states tree = Some sts ->
     exists b w',
       has_leadership self w = (Ok b, w') /\ only_reads w w' /\
       (b = true <-> exists st, st ∈ sts /\ py_str (leader st) = id_)).
Proof.
  assert (Hknown : forall id_ w',
     get_broker_id (id_manager self) w = (Ok (Some id_), w') -> id_ <> "" ->
     has_leadership self w
     = (match fst (_is_leadership_transferred None (Some [id_]) w') with
        | Ok transferred => Ok (negb transferred)
        | Raise e => Raise e
        | OutOfFuel => OutOfFuel
        end,
        snd (_is_leadership_transferred None (Some [id_]) w'))).
  { intros id_ w' Hg Hne. unfold has_leadership. unfold bind at 1. rewrite Hg.
    destruct id_ as [|c s]; [destruct Hne; reflexivity|].
    unfold bind, ret.
    destruct (_is_leadership_transferred None (Some [String c s]) w') as [[b|e|] w2];
      reflexivity. }
  split; [|split; [|split; [exact Hknown|]]].
  - intros Hm. unfold has_leadership, bind. rewrite Hm. reflexivity.
  - intros w' Hg. unfold has_leadership, bind. rewrite Hg. reflexivity.
  - intros id_ tree sts Hg Hne Hc Hz Hs.
    rewrite (Hknown id_ w Hg Hne).
    destruct (leadership_transferred_run w tree sts None (Some [id_]) Hc Hz Hs)
      as (w' & Hrun & Hr).
    rewrite Hrun. cbn [fst snd].
    eexists. exists w'. split; [reflexivity|]. split; [exact Hr|].
    rewrite negb_true_iff, scan_answer. split.
    + intros (st & Hin & Hv). exists st. split; [exact Hin|].
      apply partition_verdict_false_no_active in Hv as (l & Hl & Hm).
      apply (inj Some) in Hl. subst l. apply list_elem_of_singleton in Hm. exact Hm.
    + intros (st & Hin & Hl). exists st. split; [exact Hin|].
      apply partition_verdict_false_no_active. exists [id_]. split; [reflexivity|].
      apply list_elem_of_singleton. exact Hl.
Qed.

Lemma has_leadership_spec_witness :
  exists w', has_leadership leader_manager example_world = (Ok true, w').
Proof.
  destruct (has_leadership_spec leader_manager example_world) as (_ & _ & _ & H).
  destruct (H "3" example_tree [mkState 1 (Some [1; 2]); mkState 3 (Some [3])])
    as (b & w' & Hrun & _ & Hb).
  - reflexivity.
  - discriminate.
  - reflexivity.
  - reflexivity.
  - vm_compute. reflexivity.
  - exists w'. rewrite Hrun. f_equal. f_equal. apply Hb.
    exists (mkState 3 (Some [3])). split; [right; left|]. vm_compute. reflexivity.
Defined.

(** ** [start_kafka_process] *)

(** C7: when no process is held and the safety check, run on the children
    of [/brokers/ids] with no dead list, answers unsafe, [start] raises
    [LeaderElectionInProgress]; the world it leaves differs from the one it
    found only by the reads of the tree recorded in the trace: no property
    was set or deleted, nothing was dumped, no process was opened, and the
    process handle is still empty. *)
Theorem start_refused_without_side_effects
    (self : BrokerManager) (zookeeper_address : string) (fuel : nat)
    (w w1 w2 : World) (ids : list string) :
  process w = None ->
  exhibitor_get_children "/brokers/ids" w = (Ok ids, w1) ->
  _is_leadership_transferred (Some ids) None w1 = (Ok false, w2) ->
  start_kafka_process self zookeeper_address fuel w = (Raise LeaderElectionInProgress, w2) /\
  only_reads w w2 /\
  props w2 = props w /\ persisted w2 = persisted w /\
  process w2 = None /\ wait_timeout w2 = wait_timeout w /\
  (forall e, e ∈ trace w2 -> e ∈ trace w \/ is_zk_read e = true).
Proof.
  intros Hp Hids Hcheck.
  assert (Hr : only_reads w w2).
  { eapply only_reads_trans.
    - pose proof (reads_exhibitor_get_children "/brokers/ids" w) as H.
      rewrite Hids in H. exact H.
    - pose proof (reads_is_leadership_transferred (Some ids) None w1) as H.
      rewrite Hcheck in H. exact H. }
  split; [|split; [exact Hr|]].
  - unfold start_kafka_process. rewrite Hp.
    unfold bind at 1. rewrite Hids. unfold bind at 1. rewrite Hcheck. reflexivity.
  - destruct (only_reads_frame _ _ Hr) as (_ & _ & _ & _ & Hprops & Hpers & Hproc & Hto).
    repeat split; try assumption; [congruence|].
    destruct Hr as (evs & -> & Hevs). cbn [trace set_trace].
    intros e [He|He]%elem_of_app; [left; exact He|right].
    rewrite forallb_forall in Hevs. apply Hevs, list_elem_of_In, He.
Qed.

Lemma start_refused_without_side_effects_witness :
  start_kafka_process example_manager "zk:2181" 5 electing_world
  = (Raise LeaderElectionInProgress,
     set_trace [ZkGetChildren "/brokers/ids";
                ZkGetChildren "/brokers/topics";
                ZkGetChildren "/brokers/topics/T1/partitions";
                ZkGet "/brokers/topics/T1/partitions/0/state";
                ZkGet "/brokers/topics/T1/partitions/1/state"] electing_world).
Proof.
  apply (start_refused_without_side_effects example_manager "zk:2181" 5 electing_world
           (set_trace [ZkGetChildren "/brokers/ids"] electing_world) _ ["1"; "2"]).
  - reflexivity.
  - vm_compute. reflexivity.
  - vm_compute. reflexivity.
Defined.

(** C8: with a process handle already held, [start] returns at once and
    the world is exactly as before: no check was run (nothing was read), no
    process was opened, no property was touched, and the handle and the
    timeout are unchanged. *)
Theorem start_when_running_is_noop
    (self : BrokerManager) (zookeeper_address : string) (fuel : nat)
    (w : World) (p : Process) :
  process w = Some p ->
  start_kafka_process self zookeeper_address fuel w = (Ok tt, w).
Proof. intros Hp. unfold start_kafka_process. rewrite Hp. reflexivity. Qed.

Lemma start_when_running_is_noop_witness :
  start_kafka_process example_manager "zk:2181" 5 running_world = (Ok tt, running_world) /\
  process running_world = Some (mkProcess 7 false false) /\
  trace running_world = [].
Proof.
  split; [|split; reflexivity].
  apply (start_when_running_is_noop example_manager "zk:2181" 5 running_world
           (mkProcess 7 false false)).
  reflexivity.
Defined.

(** ** The clean election flag *)

(** C10: clean election is configured exactly when the property
    [unclean.leader.election.enable] is the string [false].  When it is
    absent or anything else, the check answers safe without reading, so
    [has_leadership] answers false, and [start], once it has listed
    [/brokers/ids], goes on with the statements below the gate. *)
Theorem clean_election_only_for_false
    (self : BrokerManager) (zookeeper_address : string) (fuel : nat) (w : World) :
  (_is_clean_election w = (Ok true, w) <->
   props w !! "unclean.leader.election.enable" = Some "false") /\
  (props w !! "unclean.leader.election.enable" <> Some "false" ->
   _is_clean_election w = (Ok false, w) /\
   (forall active dead, _is_leadership_transferred active dead w = (Ok true, w)) /\
   has_leadership self w = (Ok false, w) /\
   (forall ids w1,
      process w = None ->
      exhibitor_get_children "/brokers/ids" w = (Ok ids, w1) ->
      start_kafka_process self zookeeper_address fuel w
      = start_after_gate self zookeeper_address fuel w1)).
Proof.
  split.
  - rewrite is_clean_election_run. split.
    + intros H. apply (f_equal fst) in H. cbn [fst] in H.
      injection H as H. apply bool_decide_eq_true in H. exact H.
    + intros H. rewrite bool_decide_eq_true_2 by exact H. reflexivity.
  - intros Hn.
    assert (Hall : forall active dead, _is_leadership_transferred active dead w = (Ok true, w)).
    { intros active dead. apply check_skipped_unless_clean. exact Hn. }
    split; [|split; [exact Hall|split]].
    + rewrite is_clean_election_run. rewrite bool_decide_eq_false_2 by exact Hn. reflexivity.
    + unfold has_leadership. unfold bind at 1. rewrite get_broker_id_run.
      destruct (id_manager self) as [[|c s]|]; try reflexivity.
      unfold bind. rewrite Hall. reflexivity.
    + intros ids w1 Hp Hids.
      pose proof (reads_exhibitor_get_children "/brokers/ids" w) as Hr.
      rewrite Hids in Hr. cbn [snd] in Hr.
      destruct (only_reads_frame _ _ Hr) as (_ & _ & _ & _ & Hprops & _).
      unfold start_kafka_process. rewrite Hp.
      unfold bind at 1. rewrite Hids. unfold bind at 1.
      rewrite check_skipped_unless_clean by (unfold clean_election; rewrite Hprops; exact Hn).
      reflexivity.
Qed.

Lemma clean_election_only_for_false_witness :
  props capital_false_world !! "unclean.leader.election.enable" = Some "False" /\
  tree_states example_tree = Some [mkState 1 (Some [1; 2]); mkState 3 (Some [3])] /\
  has_leadership leader_manager capital_false_world = (Ok false, capital_false_world).
Proof.
  split; [reflexivity|]. split; [vm_compute; reflexivity|].
  destruct (clean_election_only_for_false leader_manager "zk:2181" 5 capital_false_world)
    as (_ & H).
  destruct H as (_ & _ & Hl & _).
  - vm_compute. discriminate.
  - exact Hl.
Defined.

(** ** Polling for registration *)

Lemma is_registered_in_zk_run id_ w :
  _is_registered_in_zk id_ w
  = (match zk_at w (clock w) with
     | None => Raise ConnectionLoss
     | Some tree =>
         match tree !! ("/brokers/ids/" +:+ id_) with
         | Some n => Ok (bool_decide (is_Some (znode_stat n)))
         | None => Ok false
         end
     end,
     set_trace (trace w ++ [ZkGet ("/brokers/ids/" +:+ id_)]) w).
Proof.
  unfold _is_registered_in_zk, try_except, exhibitor_get, bind, emit, zk_lookup, ret, raise.
  cbn [set_trace zk_at clock trace].
  destruct (zk_at w (clock w)) as [tree|]; [|reflexivity].
  destruct (tree !! _); reflexivity.
Qed.

Lemma meta_lines_run w lines :
  for_each (fun line =>
              match re_search_broker_id line with
              | Some id_ => let* b := _is_registered_in_zk id_ in ret (Some b)
              | None => ret None
              end) lines w
  = match first_broker_id lines with
    | Some id_ =>
        (match fst (_is_registered_in_zk id_ w) with
         | Ok b => Ok (Some b)
         | Raise e => Raise e
         | OutOfFuel => OutOfFuel
         end, snd (_is_registered_in_zk id_ w))
    | None => (Ok None, w)
    end.
Proof.
  induction lines as [|line r IH]; cbn [for_each first_broker_id]; [reflexivity|].
  unfold bind at 1.
  destruct (re_search_broker_id line) as [id_|].
  - unfold bind, ret.
    destruct (_is_registered_in_zk id_ w) as [[b|e|] w']; reflexivity.
  - unfold ret at 1. exact IH.
Qed.

(** One poll: its answer and its events. *)
Lemma is_registered_run idm w :
  is_registered idm w
  = (registered_now idm w, set_trace (trace w ++ registration_events idm w) w).
Proof.
  destruct idm as [broker_id|].
  - cbn [is_registered]. rewrite is_registered_in_zk_run. reflexivity.
  - unfold registered_now, registration_events, polled_identity.
    cbn [is_registered]. unfold bind at 1. unfold get_property.
    unfold bind at 1. unfold os_path_isfile.
    destruct (fs_at w (clock w) !! _) as [lines|] eqn:Hf.
    + rewrite bool_decide_eq_true_2 by (eexists; reflexivity). cbn [negb].
      unfold bind at 1. unfold readlines. rewrite Hf.
      unfold bind. rewrite meta_lines_run.
      destruct (first_broker_id lines) as [id_|].
      * rewrite is_registered_in_zk_run. cbn [fst snd].
        destruct (zk_at w (clock w)) as [tree|]; [|reflexivity].
        destruct (tree !! _); reflexivity.
      * unfold ret. rewrite app_nil_r, set_trace_id. reflexivity.
    + rewrite bool_decide_eq_false_2 by (intros [? H]; discriminate H). cbn [negb].
      unfold ret. rewrite app_nil_r, set_trace_id. reflexivity.
Qed.

Lemma registration_events_poll idm w : forallb is_poll (registration_events idm w) = true.
Proof. unfold registration_events. destruct (polled_identity idm w); reflexivity. Qed.

Lemma slept_registration_events idm w : slept (registration_events idm w) = 0%nat.
Proof. unfold registration_events. destruct (polled_identity idm w); reflexivity. Qed.

(** A poll does not look at the trace. *)
Lemma registered_now_frame idm w t t' l :
  registered_now idm (set_clock t (set_clock t' (set_trace l w)))
  = registered_now idm (set_clock t w).
Proof. destruct idm; reflexivity. Qed.

Lemma set_clock_id w : set_clock (clock w) w = w.
Proof. destruct w; reflexivity. Qed.

Lemma slept_app l1 l2 : slept (l1 ++ l2) = (slept l1 + slept l2)%nat.
Proof.
  induction l1 as [|e l1 IH]; [reflexivity|].
  cbn [app slept]. destruct e; rewrite ?IH; lia.
Qed.

Lemma only_polls_refl w : only_polls w w.
Proof.
  exists [], (clock w). split; [|reflexivity].
  rewrite app_nil_r, set_trace_id, set_clock_id. reflexivity.
Qed.

Lemma only_polls_trans w1 w2 w3 :
  only_polls w1 w2 -> only_polls w2 w3 -> only_polls w1 w3.
Proof.
  intros (e1 & t1 & -> & H1) (e2 & t2 & -> & H2).
  exists (e1 ++ e2)%list, t2. split.
  - unfold set_clock, set_trace.
    cbn [trace zk_at fs_at popen clock props persisted process wait_timeout].
    rewrite app_assoc. reflexivity.
  - rewrite forallb_app, H1, H2. reflexivity.
Qed.

Lemma only_polls_frame w w' :
  only_polls w w' ->
  zk_at w' = zk_at w /\ fs_at w' = fs_at w /\ popen w' = popen w /\
  props w' = props w /\ persisted w' = persisted w /\
  process w' = process w /\ wait_timeout w' = wait_timeout w /\
  (forall e, e ∈ trace w' -> e ∈ trace w \/ is_poll e = true).
Proof.
  intros (evs & t & -> & Hevs). repeat split.
  cbn [trace set_clock set_trace].
  intros e [He|He]%elem_of_app; [left; exact He|right].
  rewrite forallb_forall in Hevs. apply Hevs, list_elem_of_In, He.
Qed.

Lemma polls_is_registered idm : polls (is_registered idm).
Proof.
  intros w. rewrite is_registered_run. cbn [snd].
  exists (registration_events idm w), (clock w). split.
  - reflexivity.
  - apply registration_events_poll.
Qed.

Lemma polls_sleep n : polls (sleep n).
Proof.
  intros w. exists [Sleep n], (clock w + n)%nat. split; reflexivity.
Qed.

Lemma polls_bind {A B} (m : M A) (k : A -> M B) :
  polls m -> (forall a, polls (k a)) -> polls (bind m k).
Proof.
  intros Hm Hk w. unfold bind. specialize (Hm w).
  destruct (m w) as [[a|e|] w1]; cbn [snd] in *; try assumption.
  eapply only_polls_trans; [exact Hm|]. apply Hk.
Qed.

Lemma polls_wait_for_broker_id_absence idm fuel :
  polls (wait_for_broker_id_absence idm fuel).
Proof.
  induction fuel as [|fuel IH]; cbn [wait_for_broker_id_absence].
  - intros w. apply only_polls_refl.
  - apply polls_bind; [apply polls_is_registered|]. intros [|].
    + apply polls_bind; [apply polls_sleep|]. intros _. exact IH.
    + intros w. apply only_polls_refl.
Qed.

Lemma sleep_run n w :
  sleep n w = (Ok tt, set_clock (clock w + n) (set_trace (trace w ++ [Sleep n]) w)).
Proof. reflexivity. Qed.

(** The absence loop on a world where the identity stays registered for
    [n] more seconds: [n] polls that answer registered, each followed by a
    sleep of one second, then the poll that ends the loop. *)
Lemma absence_loop_run idm :
  forall n fuel w,
  (n < fuel)%nat ->
  (forall k, (k < n)%nat -> registered_now idm (set_clock (clock w + k) w) = Ok true) ->
  registered_now idm (set_clock (clock w + n) w) <> Ok true ->
  exists evs,
    wait_for_broker_id_absence idm fuel w
    = (match registered_now idm (set_clock (clock w + n) w) with
       | Ok _ => Ok tt
       | Raise e => Raise e
       | OutOfFuel => OutOfFuel
       end,
       set_clock (clock w + n) (set_trace (trace w ++ evs) w)) /\
    forallb is_poll evs = true /\ slept evs = n.
Proof.
  induction n as [|n IH]; intros fuel w Hf Hk Hn; (destruct fuel as [|fuel]; [lia|]).
  - rewrite Nat.add_0_r in *. rewrite set_clock_id in *.
    cbn [wait_for_broker_id_absence]. unfold bind at 1. rewrite is_registered_run.
    exists (registration_events idm w).
    split; [|split; [apply registration_events_poll|apply slept_registration_events]].
    destruct (registered_now idm w) as [[|]|e|]; [destruct Hn| | |]; reflexivity.
  - assert (H0 : registered_now idm w = Ok true).
    { specialize (Hk 0%nat ltac:(lia)). rewrite Nat.add_0_r, set_clock_id in Hk. exact Hk. }
    cbn [wait_for_broker_id_absence]. unfold bind at 1. rewrite is_registered_run, H0.
    unfold bind at 1. rewrite sleep_run.
    set (ev := registration_events idm w).
    change (set_clock (clock (set_trace (trace w ++ ev) w) + 1)
              (set_trace (trace (set_trace (trace w ++ ev) w) ++ [Sleep 1])
                 (set_trace (trace w ++ ev) w)))
      with (set_clock (clock w + 1) (set_trace ((trace w ++ ev) ++ [Sleep 1]) w)).
    set (w2 := set_clock (clock w + 1) (set_trace ((trace w ++ ev) ++ [Sleep 1]) w)).
    assert (Hblind : forall t, registered_now idm (set_clock t w2)
                               = registered_now idm (set_clock t w)).
    { intros t. apply registered_now_frame. }
    assert (Hc : forall k, (clock w2 + k = clock w + S k)%nat).
    { intros k. change (clock w2) with (clock w + 1)%nat. lia. }
    destruct (IH fuel w2) as (evs & Hrun & Hp & Hs).
    + lia.
    + intros k Hlt. rewrite Hc, Hblind. apply Hk. lia.
    + rewrite Hc, Hblind. exact Hn.
    + exists (ev ++ [Sleep 1] ++ evs)%list. split; [|split].
      * rewrite Hrun. rewrite Hc, Hblind. f_equal.
        unfold w2, set_clock, set_trace.
        cbn [trace zk_at fs_at popen clock props persisted process wait_timeout].
        rewrite <- !app_assoc. reflexivity.
      * rewrite !forallb_app, Hp. unfold ev. rewrite registration_events_poll. reflexivity.
      * rewrite !slept_app, Hs. unfold ev. rewrite slept_registration_events. reflexivity.
Qed.

Lemma terminate_process_none w :
  process w = None -> _terminate_process w = (Ok tt, w).
Proof. intros Hp. unfold _terminate_process. rewrite Hp. reflexivity. Qed.

Lemma registered_now_returns idm w : registered_now idm w <> OutOfFuel.
Proof.
  unfold registered_now.
  destruct (polled_identity idm w); [|discriminate].
  destruct (zk_at w (clock w)) as [tree|]; [|discriminate].
  destruct (tree !! _); discriminate.
Qed.

(** ** [stop_kafka_process] with no process *)

(** C9 as the claim states it fails: on a stopped controller whose identity
    is still registered for two seconds, [stop] looks the identity up three
    times and sleeps twice before it returns, and the world it leaves is
    not the one it found. *)
Lemma stop_without_process_is_not_noop :
  process lingering_world = None /\
  stop_kafka_process example_manager 5 lingering_world
  = (Ok tt,
     set_clock 2 (set_trace [ZkGet "/brokers/ids/16777219"; Sleep 1;
                             ZkGet "/brokers/ids/16777219"; Sleep 1;
                             ZkGet "/brokers/ids/16777219"] lingering_world)) /\
  snd (stop_kafka_process example_manager 5 lingering_world) <> lingering_world.
Proof.
  split; [reflexivity|]. split; [vm_compute; reflexivity|].
  intros H. apply (f_equal clock) in H. vm_compute in H. discriminate H.
Qed.

(** C9, amended: on a controller with no process handle [stop] never
    raises and terminates no process; whatever the fuel, the world it leaves
    differs from the one it found only by polls: lookups of the identity and
    sleeps in the trace, and the clock; the configuration, the persisted
    file, the empty handle and the timeout are as before.  It does wait for
    the registration to be absent: if the identity stays registered for [n]
    more seconds and the poll after that does not answer registered, then
    with fuel for more than [n] polls [stop] returns after sleeping [n]
    seconds. *)
Theorem stop_without_process_waits_for_absence (self : BrokerManager) (w : World) :
  process w = None ->
  (forall fuel,
     (fst (stop_kafka_process self fuel w) = Ok tt \/
      fst (stop_kafka_process self fuel w) = OutOfFuel) /\
     only_polls w (snd (stop_kafka_process self fuel w)) /\
     props (snd (stop_kafka_process self fuel w)) = props w /\
     persisted (snd (stop_kafka_process self fuel w)) = persisted w /\
     process (snd (stop_kafka_process self fuel w)) = None /\
     wait_timeout (snd (stop_kafka_process self fuel w)) = wait_timeout w /\
     (forall e, e ∈ trace (snd (stop_kafka_process self fuel w)) ->
                e ∈ trace w \/ is_poll e = true)) /\
  (forall n fuel,
     (forall k, (k < n)%nat ->
        fst (is_registered (id_manager self) (set_clock (clock w + k) w)) = Ok true) ->
     fst (is_registered (id_manager self) (set_clock (clock w + n) w)) <> Ok true ->
     (n < fuel)%nat ->
     exists evs,
       stop_kafka_process self fuel w
       = (Ok tt, set_clock (clock w + n) (set_trace (trace w ++ evs) w)) /\
       forallb is_poll evs = true /\ slept evs = n).
Proof.
  intros Hp.
  assert (Hstop : forall fuel,
            stop_kafka_process self fuel w
            = try_except (wait_for_broker_id_absence (id_manager self) fuel)
                         (fun _ => ret tt) w).
  { intros fuel. unfold stop_kafka_process, bind.
    rewrite (terminate_process_none w Hp). reflexivity. }
  split.
  - intros fuel. rewrite Hstop. unfold try_except.
    pose proof (polls_wait_for_broker_id_absence (id_manager self) fuel w) as Hpolls.
    destruct (wait_for_broker_id_absence (id_manager self) fuel w) as [[[]|e|] w'];
      cbn [fst snd ret] in *;
      (split; [auto|]); (split; [exact Hpolls|]);
      destruct (only_polls_frame _ _ Hpolls) as (_ & _ & _ & H1 & H2 & H3 & H4 & H5);
      repeat split; try assumption; congruence.
  - intros n fuel Hk Hn Hf.
    destruct (absence_loop_run (id_manager self) n fuel w Hf) as (evs & Hrun & Hpoll & Hs).
    + intros k Hlt. specialize (Hk k Hlt). rewrite is_registered_run in Hk. exact Hk.
    + rewrite is_registered_run in Hn. exact Hn.
    + exists evs. split; [|split; assumption].
      rewrite Hstop. unfold try_except. rewrite Hrun.
      pose proof (registered_now_returns (id_manager self) (set_clock (clock w + n) w)) as Hr.
      destruct (registered_now (id_manager self) (set_clock (clock w + n) w)) as [b|e|];
        [reflexivity|reflexivity|destruct Hr; reflexivity].
Qed.

Lemma stop_without_process_waits_for_absence_witness :
  exists evs,
    stop_kafka_process example_manager 5 lingering_world
    = (Ok tt, set_clock 2 (set_trace (trace lingering_world ++ evs) lingering_world)) /\
    forallb is_poll evs = true /\ slept evs = 2%nat.
Proof.
  destruct (stop_without_process_waits_for_absence example_manager lingering_world eq_refl)
    as (_ & H).
  apply (H 2%nat 5%nat).
  - intros k Hk. destruct k as [|[|k]]; [vm_compute; reflexivity..|lia].
  - vm_compute. discriminate.
  - lia.
Defined.

(** * Further properties of the resolvers and of the controller *)

(** ** The address hash as a number *)

(** X1: the identity of a private address is a positive number that fits a
    signed four-byte integer, and each block has a range of its own:
    10.0.0.0/8 gives 1.x.y.z, 192.168.0.0/16 gives 2.168.y.z and
    172.16.0.0/12 gives 3.x.y.z with x between 16 and 31, read base 256. *)
Theorem address_hash_positive_int32 (a : IPv4) :
  valid_ipv4 a = true -> rfc1918 a = true ->
  exists n,
    _create_rfc1918_address_hash (dotted a) = Ok (Some (py_str n, py_str reserved_max_id)) /\
    0 < n < 2 ^ 31 /\
    (net10 a = true -> 1 * 256 ^ 3 <= n < 2 * 256 ^ 3) /\
    (net192 a = true -> 2 * 256 ^ 3 + 168 * 256 ^ 2 <= n < 2 * 256 ^ 3 + 169 * 256 ^ 2) /\
    (net172 a = true -> 3 * 256 ^ 3 + 16 * 256 ^ 2 <= n < 3 * 256 ^ 3 + 32 * 256 ^ 2).
Proof.
  intros Hv Hr. exists (derived_value a).
  split; [rewrite (hash_dotted a Hv), Hr; reflexivity|].
  destruct (valid_ipv4_octets a Hv) as (A1 & A2 & A3 & A4).
  apply is_octet_bounds in A1, A2, A3, A4.
  unfold derived_value, discriminator.
  destruct (block_cases a Hv Hr)
    as [(? & H10 & H172 & H192)|[(? & ? & H10 & H172 & H192)|(? & ? & H10 & H172 & H192)]];
    rewrite H10, H172, ?H192; repeat split; intros; try discriminate; lia.
Qed.

Lemma address_hash_positive_int32_witness :
  exists n,
    _create_rfc1918_address_hash "192.168.1.20" = Ok (Some (py_str n, py_str reserved_max_id)) /\
    0 < n < 2 ^ 31.
Proof.
  destruct (address_hash_positive_int32 (mkIPv4 192 168 1 20)) as (n & Hh & Hn & _);
    [reflexivity|reflexivity|].
  exists n. split; [exact Hh|exact Hn].
Defined.

(** ** Malformed addresses *)

Lemma py_int_raises v e : py_int v = Raise e -> e = ValueError.
Proof.
  unfold py_int. destruct v; [congruence|].
  destruct (int_digits 0 _); congruence.
Qed.

Lemma py_int_returns v : py_int v <> OutOfFuel.
Proof.
  unfold py_int. destruct v; [discriminate|].
  destruct (int_digits 0 _); discriminate.
Qed.

Lemma py_map_int_empty_component (l : list string) :
  "" ∈ l -> py_map py_int l = Raise ValueError.
Proof.
  induction l as [|v l IH]; intros Hin; [inversion Hin|].
  cbn [py_map].
  destruct (py_int v) as [z|e|] eqn:Hv.
  - cbn [res_bind]. apply elem_of_cons in Hin as [<-|Hin]; [discriminate Hv|].
    rewrite (IH Hin). reflexivity.
  - rewrite (py_int_raises v e Hv). reflexivity.
  - destruct (py_int_returns v Hv).
Qed.

(** X2: an address one of whose dot-separated components is empty (the
    empty string, a leading or trailing dot, two dots in a row) makes the
    hash raise [ValueError]: [int('')] is refused before any octet is
    looked at. *)
Theorem address_hash_empty_component (ip : string) :
  "" ∈ py_split "." ip ->
  _create_rfc1918_address_hash ip = Raise ValueError.
Proof.
  intros Hin. unfold _create_rfc1918_address_hash.
  rewrite (py_map_int_empty_component _ Hin). reflexivity.
Qed.

Lemma address_hash_empty_component_witness :
  _create_rfc1918_address_hash "10.0..1" = Raise ValueError /\
  _create_rfc1918_address_hash "" = Raise ValueError /\
  _create_rfc1918_address_hash "192.168.1." = Raise ValueError.
Proof.
  split; [|split]; apply address_hash_empty_component; vm_compute.
  - do 2 right. left.
  - left.
  - do 3 right. left.
Defined.

(** ** The address-derived resolver *)

(** X3: for a private address the [ip] policy builds a resolver whose
    identity is the derived one; on the way it sets the property
    [reserved.broker.max.id] to 50331649 in the configuration object and
    does nothing else: the configuration is not written to its file, no
    lookup is made and the process handle is not touched. *)
Theorem by_ip_policy_private_address (a : IPv4) (w : World) :
  valid_ipv4 a = true -> rfc1918 a = true ->
  exists idm w',
    get_broker_id_policy "ip" (dotted a) w = (Ok idm, w') /\
    get_broker_id idm w' = (Ok (derive_identity a), w') /\
    derive_identity a <> None /\
    props w' = <["reserved.broker.max.id" := "50331649"]> (props w) /\
    trace w' = (trace w ++ [SetProperty "reserved.broker.max.id" "50331649"])%list /\
    persisted w' = persisted w /\ process w' = process w /\
    wait_timeout w' = wait_timeout w /\ clock w' = clock w.
Proof.
  intros Hv Hr.
  exists (BrokerIDByIp (py_str (derived_value a))).
  eexists. split.
  - unfold get_broker_id_policy.
    change (String.eqb "ip" "ip") with true. cbv iota.
    unfold BrokerIDByIp__init__, bind, lift.
    rewrite (hash_dotted a Hv), Hr. reflexivity.
  - rewrite (derive_identity_value a Hv Hr).
    change (py_str reserved_max_id) with "50331649".
    repeat split. discriminate.
Qed.

Lemma by_ip_policy_private_address_witness :
  exists idm w',
    get_broker_id_policy "ip" "10.0.0.3" idle_world = (Ok idm, w') /\
    get_broker_id idm w' = (Ok (Some "16777219"), w') /\
    props w' !! "reserved.broker.max.id" = Some "50331649".
Proof.
  destruct (by_ip_policy_private_address (mkIPv4 10 0 0 3) idle_world)
    as (idm & w' & Hp & Hg & _ & Hprops & _); [reflexivity|reflexivity|].
  exists idm, w'. split; [exact Hp|]. split; [exact Hg|].
  rewrite Hprops. reflexivity.
Defined.

(** ** Lookups of a registration *)

(** X4: the registration lookup never lets [NoNodeError] out: an absent
    node is the answer [False].  A node that is there answers whether it
    has metadata; a failure of the lookup other than the missing node
    (here the lost connection) is raised to the caller.  In every case the
    lookup is the one read of [/brokers/ids/<id>] and changes nothing. *)
Theorem registered_in_zk_absent_is_false (id_ : string) (w : World) :
  fst (_is_registered_in_zk id_ w) <> Raise NoNodeError /\
  snd (_is_registered_in_zk id_ w)
    = set_trace (trace w ++ [ZkGet ("/brokers/ids/" +:+ id_)]) w /\
  (zk_at w (clock w) = None ->
   fst (_is_registered_in_zk id_ w) = Raise ConnectionLoss) /\
  (forall tree, zk_at w (clock w) = Some tree ->
     (tree !! ("/brokers/ids/" +:+ id_) = None ->
      fst (_is_registered_in_zk id_ w) = Ok false) /\
     (forall n, tree !! ("/brokers/ids/" +:+ id_) = Some n ->
      fst (_is_registered_in_zk id_ w) = Ok (bool_decide (is_Some (znode_stat n))))).
Proof.
  rewrite is_registered_in_zk_run. cbn [fst snd].
  split; [|split; [reflexivity|split]].
  - destruct (zk_at w (clock w)) as [tree|]; [|discriminate].
    destruct (tree !! _); discriminate.
  - intros ->. reflexivity.
  - intros tree ->. split.
    + intros ->. reflexivity.
    + intros n ->. reflexivity.
Qed.

Lemma registered_in_zk_absent_is_false_witness :
  _is_registered_in_zk "3" example_world
  = (Ok false, set_trace [ZkGet "/brokers/ids/3"] example_world) /\
  _is_registered_in_zk "2" example_world
  = (Ok true, set_trace [ZkGet "/brokers/ids/2"] example_world).
Proof.
  pose proof (registered_in_zk_absent_is_false "3" example_world) as (_ & H3s & _ & H3).
  pose proof (registered_in_zk_absent_is_false "2" example_world) as (_ & H2s & _ & H2).
  destruct (H3 example_tree eq_refl) as (H3a & _).
  destruct (H2 example_tree eq_refl) as (_ & H2b).
  split.
  - rewrite (surjective_pairing (_is_registered_in_zk "3" example_world)).
    rewrite H3s, H3a by (vm_compute; reflexivity). reflexivity.
  - rewrite (surjective_pairing (_is_registered_in_zk "2" example_world)).
    rewrite H2s, (H2b (mkNode None (Some 0) [])) by (vm_compute; reflexivity).
    reflexivity.
Defined.

(** ** The delegated resolver and its meta file *)







(** ** Reading back an identity written as [broker.id=<n>] *)








(** ** Waiting for a registration to appear *)

Lemma polls_presence_loop idm start timeout fuel :
  polls (presence_loop idm start timeout fuel).
Proof.
  induction fuel as [|fuel IH]; cbn [presence_loop].
  - intros w. apply only_polls_refl.
  - apply polls_bind; [apply polls_is_registered|]. intros [|]; cbn [negb].
    + intros w. apply only_polls_refl.
    + apply polls_bind; [intros w; apply only_polls_refl|]. intros now.
      destruct (timeout <? now - start)%nat; [intros w; apply only_polls_refl|].
      apply polls_bind; [apply polls_sleep|]. intros _. exact IH.
Qed.

Lemma polls_wait_for_broker_id_presence idm timeout fuel :
  polls (wait_for_broker_id_presence idm timeout fuel).
Proof.
  unfold wait_for_broker_id_presence.
  apply polls_bind; [intros w; apply only_polls_refl|]. intros start.
  apply polls_presence_loop.
Qed.







(** ** Stopping a broker *)

Lemma terminate_process_run w p :
  process w = Some p ->
  _terminate_process w
  = (Ok tt, set_process None (set_trace (trace w ++ terminate_events p) w)).
Proof.
  intros Hp. unfold _terminate_process. rewrite Hp.
  unfold terminate_events.
  destruct (terminate_raises p) eqn:Ht; [|destruct (wait_raises p) eqn:Hw];
    cbv [try_finally try_except bind process_terminate process_wait emit raise ret];
    rewrite Ht, ?Hw; unfold set_process, set_trace;
    cbn [trace zk_at fs_at popen clock props persisted process wait_timeout];
    rewrite <- ?app_assoc; reflexivity.
Qed.

(** X10: with a process held, [_terminate_process] calls [terminate()] and
    then [wait()] on it, skips the [wait()] when [terminate()] raised, lets
    no exception of either out, and in every case leaves the handle empty;
    the configuration, its file and the timeout are untouched. *)
Theorem terminate_always_clears_handle (w : World) (p : Process) :
  process w = Some p ->
  exists w',
    _terminate_process w = (Ok tt, w') /\
    process w' = None /\
    trace w' = (trace w ++ Terminate (pid p)
                  :: if terminate_raises p then [] else [Wait (pid p)])%list /\
    props w' = props w /\ persisted w' = persisted w /\
    wait_timeout w' = wait_timeout w /\ clock w' = clock w.
Proof.
  intros Hp. eexists. split; [apply (terminate_process_run w p Hp)|].
  repeat split.
Qed.

Lemma terminate_always_clears_handle_witness :
  _terminate_process (set_process (Some (mkProcess 7 false true)) example_world)
  = (Ok tt, set_trace [Terminate 7; Wait 7] example_world).
Proof.
  destruct (terminate_always_clears_handle
              (set_process (Some (mkProcess 7 false true)) example_world)
              (mkProcess 7 false true) eq_refl) as (w' & Hrun & _).
  rewrite Hrun. f_equal.
  apply (f_equal snd) in Hrun. cbn [snd] in Hrun. rewrite <- Hrun. reflexivity.
Defined.

Lemma terminate_process_held w :
  _terminate_process w = (Ok tt, set_process None (set_trace (trace w ++ held_events w) w)).
Proof.
  unfold held_events. destruct (process w) as [p|] eqn:Hp.
  - apply terminate_process_run, Hp.
  - rewrite (terminate_process_none w Hp), app_nil_r, set_trace_id.
    destruct w; cbn in *; subst; reflexivity.
Qed.

Lemma stop_run self fuel w :
  stop_kafka_process self fuel w
  = try_except (wait_for_broker_id_absence (id_manager self) fuel) (fun _ => ret tt)
      (set_process None (set_trace (trace w ++ held_events w) w)).
Proof.
  unfold stop_kafka_process, bind. rewrite terminate_process_held. reflexivity.
Qed.

Lemma polls_wait_for_zk_absence self fuel : polls (_wait_for_zk_absence self fuel).
Proof.
  intros w. unfold _wait_for_zk_absence, try_except.
  pose proof (polls_wait_for_broker_id_absence (id_manager self) fuel w) as H.
  destruct (wait_for_broker_id_absence (id_manager self) fuel w) as [[[]|e|] w']; exact H.
Qed.

Lemma wait_for_zk_absence_outcome self fuel w :
  fst (_wait_for_zk_absence self fuel w) = Ok tt \/
  fst (_wait_for_zk_absence self fuel w) = OutOfFuel.
Proof.
  unfold _wait_for_zk_absence, try_except.
  destruct (wait_for_broker_id_absence (id_manager self) fuel w) as [[[]|e|] w']; auto.
Qed.

Lemma stop_leaves_no_process self fuel w :
  process (snd (stop_kafka_process self fuel w)) = None.
Proof.
  rewrite stop_run.
  pose proof (polls_wait_for_zk_absence self fuel
                (set_process None (set_trace (trace w ++ held_events w) w))) as H.
  unfold _wait_for_zk_absence in H.
  destruct (only_polls_frame _ _ H) as (_ & _ & _ & _ & _ & Hp & _).
  rewrite Hp. reflexivity.
Qed.

(** X11: whatever the state of the controller, [stop] lets no exception
    out and leaves the handle empty; it never sets or deletes a property,
    never writes the configuration file, never opens a process and never
    changes the timeout.  What it adds to the trace is the termination of
    the held process, if there was one, followed by polls only. *)
Theorem stop_never_raises_and_clears_handle (self : BrokerManager) (fuel : nat) (w : World) :
  (fst (stop_kafka_process self fuel w) = Ok tt \/
   fst (stop_kafka_process self fuel w) = OutOfFuel) /\
  process (snd (stop_kafka_process self fuel w)) = None /\
  props (snd (stop_kafka_process self fuel w)) = props w /\
  persisted (snd (stop_kafka_process self fuel w)) = persisted w /\
  wait_timeout (snd (stop_kafka_process self fuel w)) = wait_timeout w /\
  exists evs,
    trace (snd (stop_kafka_process self fuel w))
    = (trace w ++ match process w with
                  | Some p => Terminate (pid p)
                                :: if terminate_raises p then [] else [Wait (pid p)]
                  | None => []
                  end ++ evs)%list /\
    forallb is_poll evs = true.
Proof.
  split; [|split; [apply stop_leaves_no_process|]].
  - rewrite stop_run. apply (wait_for_zk_absence_outcome self fuel).
  - rewrite stop_run.
    pose proof (polls_wait_for_zk_absence self fuel
                  (set_process None (set_trace (trace w ++ held_events w) w))) as H.
    unfold _wait_for_zk_absence in H.
    destruct H as (evs & t & -> & Hevs).
    cbn [props persisted wait_timeout trace set_clock set_trace set_process].
    repeat split. exists evs. split; [|exact Hevs].
    rewrite <- app_assoc. reflexivity.
Qed.

(** A poll looks neither at the process handle nor at the trace. *)
Lemma registered_now_stopped idm w t l :
  registered_now idm (set_clock t (set_process None (set_trace l w)))
  = registered_now idm (set_clock t w).
Proof. destruct idm; reflexivity. Qed.

Lemma stop_wait_run self n fuel w :
  (n < fuel)%nat ->
  (forall k, (k < n)%nat ->
     registered_now (id_manager self) (set_clock (clock w + k) w) = Ok true) ->
  registered_now (id_manager self) (set_clock (clock w + n) w) <> Ok true ->
  exists evs,
    stop_kafka_process self fuel w
    = (Ok tt, set_clock (clock w + n)
                (set_process None (set_trace (trace w ++ held_events w ++ evs) w))) /\
    forallb is_poll evs = true /\ slept evs = n.
Proof.
  intros Hf Hk Hn. rewrite stop_run.
  set (w1 := set_process None (set_trace (trace w ++ held_events w) w)).
  destruct (absence_loop_run (id_manager self) n fuel w1 Hf) as (evs & Hrun & Hp & Hs).
  - intros k Hlt. unfold w1. rewrite registered_now_stopped. apply Hk, Hlt.
  - unfold w1. rewrite registered_now_stopped. exact Hn.
  - exists evs. split; [|split; assumption].
    unfold try_except. rewrite Hrun.
    replace (registered_now (id_manager self) (set_clock (clock w1 + n) w1))
      with (registered_now (id_manager self) (set_clock (clock w + n) w))
      by (symmetry; apply registered_now_stopped).
    pose proof (registered_now_returns (id_manager self) (set_clock (clock w + n) w)) as Hr.
    assert (Hw : set_clock (clock w1 + n) (set_trace (trace w1 ++ evs) w1)
                 = set_clock (clock w + n)
                     (set_process None (set_trace (trace w ++ held_events w ++ evs) w))).
    { unfold w1, set_clock, set_process, set_trace.
      cbn [trace zk_at fs_at popen clock props persisted process wait_timeout].
      rewrite <- app_assoc. reflexivity. }
    rewrite Hw.
    destruct (registered_now (id_manager self) (set_clock (clock w + n) w)) as [b|e|];
      [reflexivity|reflexivity|destruct Hr; reflexivity].
Qed.

(** X12: [stop] on a controller in any state: if the identity stays
    registered for [n] more seconds and the poll after them does not answer
    registered, then with fuel for more than [n] polls [stop] returns
    normally [n] seconds later, having terminated the held process first (if
    any) and slept one second after each poll that answered registered. *)
Theorem stop_returns_once_registration_gone
    (self : BrokerManager) (n fuel : nat) (w : World) :
  (n < fuel)%nat ->
  (forall k, (k < n)%nat ->
     fst (is_registered (id_manager self) (set_clock (clock w + k) w)) = Ok true) ->
  fst (is_registered (id_manager self) (set_clock (clock w + n) w)) <> Ok true ->
  exists evs,
    stop_kafka_process self fuel w
    = (Ok tt, set_clock (clock w + n)
                (set_process None
                   (set_trace (trace w ++ match process w with
                                          | Some p => terminate_events p
                                          | None => []
                                          end ++ evs) w))) /\
    forallb is_poll evs = true /\ slept evs = n.
Proof.
  intros Hf Hk Hn.
  apply (stop_wait_run self n fuel w Hf).
  - intros k Hlt. specialize (Hk k Hlt). rewrite is_registered_run in Hk. exact Hk.
  - rewrite is_registered_run in Hn. exact Hn.
Qed.

Lemma stop_returns_once_registration_gone_witness :
  exists evs,
    stop_kafka_process example_manager 5
      (set_process (Some (mkProcess 7 false false)) lingering_world)
    = (Ok tt,
       set_clock 2 (set_trace ([Terminate 7; Wait 7] ++ evs) lingering_world)) /\
    forallb is_poll evs = true /\ slept evs = 2%nat.
Proof.
  apply (stop_returns_once_registration_gone example_manager 2 5
           (set_process (Some (mkProcess 7 false false)) lingering_world)).
  - lia.
  - intros k Hk. destruct k as [|[|k]]; [vm_compute; reflexivity..|lia].
  - vm_compute. discriminate.
Defined.

(** X13: a lookup that fails while [stop] waits ends the wait: when the
    coordination service cannot be reached at the time of the call, [stop]
    of a controller with an address-derived identity returns normally after
    that one failed lookup, without sleeping; the error is not raised to the
    caller. *)
Theorem stop_swallows_lookup_failure
    (self : BrokerManager) (id_ : string) (fuel : nat) (w : World) :
  id_manager self = BrokerIDByIp id_ ->
  zk_at w (clock w) = None ->
  (0 < fuel)%nat ->
  fst (is_registered (id_manager self) w) = Raise ConnectionLoss /\
  stop_kafka_process self fuel w
  = (Ok tt,
     set_process None
       (set_trace (trace w ++ match process w with
                              | Some p => terminate_events p
                              | None => []
                              end ++ [ZkGet ("/brokers/ids/" +:+ id_)]) w)).
Proof.
  intros Hid Hz Hf.
  assert (Hreg : registered_now (id_manager self) w = Raise ConnectionLoss).
  { rewrite Hid. unfold registered_now, polled_identity. rewrite Hz. reflexivity. }
  split; [rewrite is_registered_run; exact Hreg|].
  rewrite stop_run. unfold try_except.
  destruct fuel as [|fuel]; [lia|]. cbn [wait_for_broker_id_absence].
  unfold bind at 1. rewrite is_registered_run.
  assert (Hreg1 : registered_now (id_manager self)
                    (set_process None (set_trace (trace w ++ held_events w) w))
                  = Raise ConnectionLoss).
  { rewrite Hid. unfold registered_now, polled_identity.
    cbn [zk_at clock set_process set_trace]. rewrite Hz. reflexivity. }
  rewrite Hreg1. unfold ret. f_equal. rewrite Hid.
  unfold registration_events, polled_identity, held_events, set_process, set_trace.
  cbn [trace zk_at fs_at popen clock props persisted process wait_timeout].
  rewrite <- app_assoc. reflexivity.
Qed.

(** X14: after [stop], whatever happened during it, the controller reports
    not running, and does so without a lookup. *)
Theorem stopped_controller_is_not_running (self : BrokerManager) (fuel : nat) (w : World) :
  is_running_and_registered self (snd (stop_kafka_process self fuel w))
  = (Ok false, snd (stop_kafka_process self fuel w)).
Proof.
  unfold is_running_and_registered. rewrite stop_leaves_no_process. reflexivity.
Qed.

Lemma stop_swallows_lookup_failure_witness :
  stop_kafka_process example_manager 5 unreachable_world
  = (Ok tt, set_trace [ZkGet "/brokers/ids/16777219"] unreachable_world).
Proof.
  apply (stop_swallows_lookup_failure example_manager "16777219" 5 unreachable_world).
  - reflexivity.
  - reflexivity.
  - lia.
Defined.

(** ** Starting a broker *)

Lemma start_after_gate_launched self zookeeper_address fuel w p :
  popen w (start_command self) = Some p ->
  start_after_gate self zookeeper_address fuel w
  = await_registration self fuel (launched self zookeeper_address p w).
Proof.
  intros Hp. unfold start_after_gate. unfold bind at 1. rewrite get_broker_id_run.
  unfold await_registration, launched, configured, start_events, start_settings,
    start_command in *.
  destruct (id_manager self) as [broker_id|];
    cbv [bind set_property delete_property dump _open_process subprocess_Popen emit ret];
    cbn [trace zk_at fs_at popen clock props persisted process wait_timeout
         set_trace set_props set_persisted set_process];
    rewrite Hp; rewrite <- !app_assoc; reflexivity.
Qed.

Lemma start_after_gate_not_launched self zookeeper_address fuel w :
  popen w (start_command self) = None ->
  start_after_gate self zookeeper_address fuel w
  = (Raise OSError, configured self zookeeper_address w).
Proof.
  intros Hp. unfold start_after_gate. unfold bind at 1. rewrite get_broker_id_run.
  unfold configured, start_events, start_settings, start_command in *.
  destruct (id_manager self) as [broker_id|];
    cbv [bind set_property delete_property dump _open_process subprocess_Popen emit ret];
    cbn [trace zk_at fs_at popen clock props persisted process wait_timeout
         set_trace set_props set_persisted set_process];
    rewrite Hp; rewrite <- !app_assoc; reflexivity.
Qed.

Lemma start_passes_gate self zookeeper_address fuel w w1 w2 ids :
  process w = None ->
  exhibitor_get_children "/brokers/ids" w = (Ok ids, w1) ->
  _is_leadership_transferred (Some ids) None w1 = (Ok true, w2) ->
  start_kafka_process self zookeeper_address fuel w
  = start_after_gate self zookeeper_address fuel w2 /\
  only_reads w w2.
Proof.
  intros Hp Hids Hcheck. split.
  - unfold start_kafka_process. rewrite Hp.
    unfold bind at 1. rewrite Hids. unfold bind at 1. rewrite Hcheck. reflexivity.
  - eapply only_reads_trans.
    + pose proof (reads_exhibitor_get_children "/brokers/ids" w) as H.
      rewrite Hids in H. exact H.
    + pose proof (reads_is_leadership_transferred (Some ids) None w1) as H.
      rewrite Hcheck in H. exact H.
Qed.




Lemma set_wait_timeout_id w : set_wait_timeout (wait_timeout w) w = w.
Proof. destruct w; reflexivity. Qed.

(** Whatever its outcome, the wait for the registration only polls, and
    leaves the timeout as it was or one minute longer. *)
Lemma await_registration_frame self fuel w :
  exists evs t to,
    snd (await_registration self fuel w)
    = set_wait_timeout to (set_clock t (set_trace (trace w ++ evs) w)) /\
    forallb is_poll evs = true /\
    (to = wait_timeout w \/ to = (wait_timeout w + 60)%nat).
Proof.
  unfold await_registration. unfold bind at 1. unfold bind at 1.
  destruct (polls_wait_for_broker_id_presence (id_manager self) (wait_timeout w) fuel w)
    as (evs & t & Hw & Hevs).
  exists evs, t.
  destruct (wait_for_broker_id_presence (id_manager self) (wait_timeout w) fuel w)
    as [[[|]|e|] w']; cbn [snd negb ret] in *; subst w'.
  - exists (wait_timeout w). split; [|split; [exact Hevs|left; reflexivity]]. reflexivity.
  - exists (wait_timeout w + 60)%nat. split; [|split; [exact Hevs|right; reflexivity]].
    reflexivity.
  - exists (wait_timeout w). split; [|split; [exact Hevs|left; reflexivity]]. reflexivity.
  - exists (wait_timeout w). split; [|split; [exact Hevs|left; reflexivity]]. reflexivity.
Qed.

(** X15: once the safety gate is passed and the broker process can be
    opened, [start] has, in this order, set [broker.id] to the resolver's
    identity (or deleted it when the resolver has none), set
    [zookeeper.connect] to the address given, written the configuration file
    and opened the process [<kafka_dir>/bin/kafka-server-start.sh
    <settings_file>]; after that it only polls.  So whatever the wait for the
    registration ends with, the process handle holds the new process, the
    file holds the settings of the configuration object,
    [get_zk_connect_string] gives the address back, and the timeout is the
    old one or one minute longer. *)
Theorem start_writes_settings_then_launches
    (self : BrokerManager) (zookeeper_address : string) (fuel : nat)
    (w w1 w2 : World) (ids : list string) (p : Process) :
  process w = None ->
  exhibitor_get_children "/brokers/ids" w = (Ok ids, w1) ->
  _is_leadership_transferred (Some ids) None w1 = (Ok true, w2) ->
  popen w (start_command self) = Some p ->
  exists w' evs,
    snd (start_kafka_process self zookeeper_address fuel w) = w' /\
    process w' = Some p /\
    props w' = start_settings self zookeeper_address (props w) /\
    persisted w' = Some (props w') /\
    get_zk_connect_string w' = (Ok (Some zookeeper_address), w') /\
    (wait_timeout w' = wait_timeout w \/ wait_timeout w' = (wait_timeout w + 60)%nat) /\
    trace w' = (trace w2 ++ start_events self zookeeper_address (props w) ++ evs)%list /\
    forallb is_poll evs = true.
Proof.
  intros Hp Hids Hcheck Hpopen.
  destruct (start_passes_gate self zookeeper_address fuel w w1 w2 ids Hp Hids Hcheck)
    as (Hstart & Hr).
  destruct (only_reads_frame _ _ Hr) as (_ & _ & Hpo & _ & Hprops & _ & _ & Hto).
  rewrite <- Hpo in Hpopen.
  rewrite Hstart, (start_after_gate_launched self zookeeper_address fuel w2 p Hpopen).
  destruct (await_registration_frame self fuel (launched self zookeeper_address p w2))
    as (evs & t & to & -> & Hevs & Hto').
  eexists. exists evs. split; [reflexivity|].
  unfold launched, configured, get_zk_connect_string, get_property in *.
  cbn [trace zk_at fs_at popen clock props persisted process wait_timeout
       set_trace set_props set_persisted set_process set_clock set_wait_timeout] in *.
  rewrite Hprops, Hto in *.
  repeat split; try assumption.
  - unfold start_settings. rewrite lookup_insert_eq. reflexivity.
  - rewrite <- app_assoc. reflexivity.
Qed.

Lemma start_writes_settings_then_launches_witness :
  exists w' evs,
    snd (start_kafka_process example_manager "zk:2181" 3 example_world) = w' /\
    process w' = Some (mkProcess 1 false false) /\
    props w' = start_settings example_manager "zk:2181" (props example_world) /\
    persisted w' = Some (props w') /\
    get_zk_connect_string w' = (Ok (Some "zk:2181"), w') /\
    (wait_timeout w' = wait_timeout example_world \/
     wait_timeout w' = (wait_timeout example_world + 60)%nat) /\
    trace w' = ([ZkGetChildren "/brokers/ids";
                 ZkGetChildren "/brokers/topics";
                 ZkGetChildren "/brokers/topics/T1/partitions";
                 ZkGet "/brokers/topics/T1/partitions/0/state";
                 ZkGet "/brokers/topics/T1/partitions/1/state"]
                ++ start_events example_manager "zk:2181" (props example_world) ++ evs)%list /\
    forallb is_poll evs = true.
Proof.
  apply (start_writes_settings_then_launches example_manager "zk:2181" 3 example_world
           (set_trace [ZkGetChildren "/brokers/ids"] example_world)
           (set_trace [ZkGetChildren "/brokers/ids";
                       ZkGetChildren "/brokers/topics";
                       ZkGetChildren "/brokers/topics/T1/partitions";
                       ZkGet "/brokers/topics/T1/partitions/0/state";
                       ZkGet "/brokers/topics/T1/partitions/1/state"] example_world)
           ["1"; "2"] (mkProcess 1 false false)).
  - reflexivity.
  - vm_compute. reflexivity.
  - vm_compute. reflexivity.
  - reflexivity.
Defined.

(** X16: the configuration is written before the process is opened and is
    not taken back: when the gate is passed and the process cannot be
    opened, [start] raises the error of the launch with the handle still
    empty, but the configuration object and its file already hold the new
    [broker.id] and [zookeeper.connect]. *)
Theorem start_keeps_settings_when_launch_fails
    (self : BrokerManager) (zookeeper_address : string) (fuel : nat)
    (w w1 w2 : World) (ids : list string) :
  process w = None ->
  exhibitor_get_children "/brokers/ids" w = (Ok ids, w1) ->
  _is_leadership_transferred (Some ids) None w1 = (Ok true, w2) ->
  popen w (start_command self) = None ->
  exists w',
    start_kafka_process self zookeeper_address fuel w = (Raise OSError, w') /\
    process w' = None /\
    props w' = start_settings self zookeeper_address (props w) /\
    persisted w' = Some (start_settings self zookeeper_address (props w)) /\
    wait_timeout w' = wait_timeout w /\
    trace w' = (trace w2 ++ start_events self zookeeper_address (props w))%list.
Proof.
  intros Hp Hids Hcheck Hpopen.
  destruct (start_passes_gate self zookeeper_address fuel w w1 w2 ids Hp Hids Hcheck)
    as (Hstart & Hr).
  destruct (only_reads_frame _ _ Hr) as (_ & _ & Hpo & _ & Hprops & _ & Hproc & Hto).
  rewrite <- Hpo in Hpopen.
  rewrite Hstart, (start_after_gate_not_launched self zookeeper_address fuel w2 Hpopen).
  eexists. split; [reflexivity|].
  unfold configured.
  cbn [trace zk_at fs_at popen clock props persisted process wait_timeout
       set_trace set_props set_persisted].
  rewrite Hprops, Hproc, Hto. repeat split. exact Hp.
Qed.

Lemma start_keeps_settings_when_launch_fails_witness :
  exists w',
    start_kafka_process example_manager "zk:2181" 3 no_launcher_world = (Raise OSError, w') /\
    process w' = None /\
    persisted w' = Some (start_settings example_manager "zk:2181" (props no_launcher_world)).
Proof.
  destruct (start_keeps_settings_when_launch_fails example_manager "zk:2181" 3
              no_launcher_world
              (set_trace [ZkGetChildren "/brokers/ids"] no_launcher_world)
              (set_trace [ZkGetChildren "/brokers/ids";
                          ZkGetChildren "/brokers/topics";
                          ZkGetChildren "/brokers/topics/T1/partitions";
                          ZkGet "/brokers/topics/T1/partitions/0/state";
                          ZkGet "/brokers/topics/T1/partitions/1/state"] no_launcher_world)
              ["1"; "2"]) as (w' & Hrun & Hproc & _ & Hpers & _).
  - reflexivity.
  - vm_compute. reflexivity.
  - vm_compute. reflexivity.
  - reflexivity.
  - exists w'. split; [exact Hrun|]. split; [exact Hproc|exact Hpers].
Defined.








(** X20: [start] lists [/brokers/ids] before anything else.  When that
    node is not there, or the coordination service cannot be reached,
    [start] raises the error of the lookup whatever the election settings
    are, after that one read and with nothing else done. *)
Theorem start_needs_broker_ids_node
    (self : BrokerManager) (zookeeper_address : string) (fuel : nat) (w : World) :
  process w = None ->
  (zk_at w (clock w) = None ->
   start_kafka_process self zookeeper_address fuel w
   = (Raise ConnectionLoss, set_trace (trace w ++ [ZkGetChildren "/brokers/ids"]) w)) /\
  (forall tree,
     zk_at w (clock w) = Some tree -> tree !! "/brokers/ids" = None ->
     start_kafka_process self zookeeper_address fuel w
     = (Raise NoNodeError, set_trace (trace w ++ [ZkGetChildren "/brokers/ids"]) w)).
Proof.
  intros Hp. split.
  - intros Hz. unfold start_kafka_process. rewrite Hp.
    unfold bind at 1. unfold exhibitor_get_children, bind, emit, zk_lookup.
    cbn [zk_at clock set_trace]. rewrite Hz. reflexivity.
  - intros tree Hz Hn. unfold start_kafka_process. rewrite Hp.
    unfold bind at 1. unfold exhibitor_get_children, bind, emit, zk_lookup.
    cbn [zk_at clock set_trace]. rewrite Hz, Hn. reflexivity.
Qed.

Lemma start_needs_broker_ids_node_witness :
  start_kafka_process example_manager "zk:2181" 3 idle_world
  = (Raise NoNodeError, set_trace [ZkGetChildren "/brokers/ids"] idle_world) /\
  start_kafka_process example_manager "zk:2181" 3 unreachable_world
  = (Raise ConnectionLoss, set_trace [ZkGetChildren "/brokers/ids"] unreachable_world).
Proof.
  split.
  - apply (proj2 (start_needs_broker_ids_node example_manager "zk:2181" 3 idle_world eq_refl)
             ∅); reflexivity.
  - apply (proj1 (start_needs_broker_ids_node example_manager "zk:2181" 3 unreachable_world
                    eq_refl)); reflexivity.
Defined.

(** ** The safety check on empty lists *)

Lemma partition_verdict_empty_active d st :
  partition_verdict (Some []) d st = partition_verdict None d st.
Proof. reflexivity. Qed.

Lemma partition_verdict_empty_dead a st :
  partition_verdict a (Some []) st = partition_verdict a None st.
Proof.
  unfold partition_verdict. cbn [truthy andb].
  destruct (truthy a && negb (py_in (py_str (leader st)) a)); reflexivity.
Qed.

Lemma partition_verdict_no_lists st : partition_verdict None None st = None.
Proof. reflexivity. Qed.

Lemma for_each_ext {A R} (f g : A -> M (option R)) :
  (forall x w, f x w = g x w) -> forall l w, for_each f l w = for_each g l w.
Proof.
  intros Hfg. induction l as [|x l IH]; intros w; cbn [for_each]; [reflexivity|].
  unfold bind. rewrite Hfg.
  destruct (g x w) as [[[v|]|e|] w']; try reflexivity. apply IH.
Qed.

Lemma bind_ext {A B} (m : M A) (k k' : A -> M B) :
  (forall a w, k a w = k' a w) -> forall w, bind m k w = bind m k' w.
Proof.
  intros Hk w. unfold bind. destruct (m w) as [[a|e|] w']; [apply Hk|reflexivity..].
Qed.

Lemma bind_ext_l {A B} (m m' : M A) (k : A -> M B) :
  (forall w, m w = m' w) -> forall w, bind m k w = bind m' k w.
Proof. intros Hm w. unfold bind. rewrite Hm. reflexivity. Qed.

(** Two pairs of lists that give every state the same verdict give the
    check the same run. *)
Lemma leadership_transferred_ext a d a' d' :
  (forall st, partition_verdict a d st = partition_verdict a' d' st) ->
  forall w, _is_leadership_transferred a d w = _is_leadership_transferred a' d' w.
Proof.
  intros Hv. unfold _is_leadership_transferred.
  apply bind_ext. intros [|] w1; [|reflexivity].
  apply bind_ext. intros topics.
  apply bind_ext_l. apply for_each_ext. intros t.
  unfold topic_loop_body. apply bind_ext. intros parts.
  apply for_each_ext. intros p.
  unfold partition_loop_body. apply bind_ext. intros n.
  apply bind_ext. intros st w. unfold ret. rewrite Hv. reflexivity.
Qed.

Lemma for_each_no_verdict {A} (body : A -> M (option bool)) :
  (forall x w b, fst (body x w) <> Ok (Some b)) ->
  forall l w b, fst (for_each body l w) <> Ok (Some b).
Proof.
  intros Hb. induction l as [|x l IH]; intros w b; cbn [for_each]; [discriminate|].
  unfold bind. pose proof (Hb x w) as Hx.
  destruct (body x w) as [[[v|]|e|] w']; cbn [fst] in *; try discriminate.
  - destruct (Hx v). reflexivity.
  - apply IH.
Qed.

(** X21: an empty list is no list.  The check with an empty active list
    runs exactly as with none, and likewise for the dead list; so on a
    cluster with no registered broker (an empty [/brokers/ids]) the gate of
    [start] never answers unsafe, whatever the partitions say. *)
Theorem empty_lists_are_no_lists :
  (forall d w, _is_leadership_transferred (Some []) d w = _is_leadership_transferred None d w) /\
  (forall a w, _is_leadership_transferred a (Some []) w = _is_leadership_transferred a None w) /\
  (forall w, fst (_is_leadership_transferred (Some []) None w) <> Ok false).
Proof.
  split; [|split].
  - intros d. apply leadership_transferred_ext. intros st.
    apply partition_verdict_empty_active.
  - intros a. apply leadership_transferred_ext. intros st.
    apply partition_verdict_empty_dead.
  - intros w. unfold _is_leadership_transferred. unfold bind at 1.
    destruct (_is_clean_election w) as [[[|]|e|] w1]; try discriminate.
    unfold bind at 1.
    destruct (exhibitor_get_children "/brokers/topics" w1) as [[topics|e|] w2];
      try discriminate.
    unfold bind.
    pose proof (for_each_no_verdict (topic_loop_body (Some []) None)) as H.
    specialize (H (fun t w3 b => ltac:(
      unfold topic_loop_body, bind;
      destruct (exhibitor_get_children _ w3) as [[parts|e|] w4]; try discriminate;
      apply for_each_no_verdict; intros p w5 b'; unfold partition_loop_body, bind;
      destruct (exhibitor_get _ w5) as [[n|e|] w6]; try discriminate;
      destruct (json_loads n w6) as [[st|e|] w7]; discriminate)) topics w2 false).
    destruct (for_each (topic_loop_body (Some []) None) topics w2) as [[[[|]|]|e|] w3];
      cbn [fst] in *; try discriminate.
    destruct H. reflexivity.
Qed.

(** ** What the check and [has_leadership] leave untouched *)

Lemma reads_has_leadership self : reads (has_leadership self).
Proof.
  unfold has_leadership.
  apply reads_bind.
  - intros w. rewrite get_broker_id_run. apply only_reads_refl.
  - intros [[|c s]|]; try apply reads_ret.
    apply reads_bind; [apply reads_is_leadership_transferred|]. intros b. apply reads_ret.
Qed.

(** X22: the safety check and [has_leadership] are read-only whatever
    they answer and also when they raise: they add reads of the tree to the
    trace and change nothing else, neither the configuration nor its file,
    the process handle, the timeout or the clock. *)
Theorem leadership_checks_are_read_only
    (self : BrokerManager) (a d : option (list string)) (w : World) :
  (exists evs,
     snd (_is_leadership_transferred a d w) = set_trace (trace w ++ evs) w /\
     forallb is_zk_read evs = true) /\
  (exists evs,
     snd (has_leadership self w) = set_trace (trace w ++ evs) w /\
     forallb is_zk_read evs = true).
Proof.
  split.
  - exact (reads_is_leadership_transferred a d w).
  - exact (reads_has_leadership self w).
Qed.

(** ** The scan stops at the first unsafe partition *)






(** * The table printer of the command line *)

(** ** The order of names *)

Lemma ascii_compare_refl c : Ascii.compare c c = Eq.
Proof. unfold Ascii.compare. apply N.compare_refl. Qed.

Lemma ascii_compare_lt_trans a b c :
  Ascii.compare a b = Lt -> Ascii.compare b c = Lt -> Ascii.compare a c = Lt.
Proof.
  unfold Ascii.compare. rewrite !N.compare_lt_iff. apply N.lt_trans.
Qed.

Lemma string_compare_refl s : String.compare s s = Eq.
Proof.
  induction s as [|c s IH]; [reflexivity|].
  cbn [String.compare]. rewrite ascii_compare_refl. exact IH.
Qed.

Lemma string_compare_lt_trans s1 : forall s2 s3,
  String.compare s1 s2 = Lt -> String.compare s2 s3 = Lt -> String.compare s1 s3 = Lt.
Proof.
  induction s1 as [|a s1 IH]; intros [|b s2] [|c s3]; cbn [String.compare];
    try congruence.
  destruct (Ascii.compare a b) eqn:Hab; try discriminate;
    destruct (Ascii.compare b c) eqn:Hbc; try discriminate.
  - apply Ascii.compare_eq_iff in Hab, Hbc. subst.
    rewrite ascii_compare_refl. apply IH.
  - apply Ascii.compare_eq_iff in Hab. subst. rewrite Hbc. reflexivity.
  - apply Ascii.compare_eq_iff in Hbc. subst. rewrite Hab. reflexivity.
  - rewrite (ascii_compare_lt_trans a b c Hab Hbc). reflexivity.
Qed.

Lemma string_compare_gt s1 s2 : String.compare s1 s2 = Gt -> String.compare s2 s1 = Lt.
Proof.
  intros H. rewrite String.compare_antisym, H. reflexivity.
Qed.

Lemma string_compare_lt_irrefl s : String.compare s s <> Lt.
Proof. rewrite string_compare_refl. discriminate. Qed.

(** ** [sorted(set(l))] *)

Lemma elem_of_insert_name x n l : x ∈ insert_name n l <-> x = n \/ x ∈ l.
Proof.
  induction l as [|m r IH]; cbn [insert_name].
  - rewrite list_elem_of_singleton. split; [auto|]. intros [H|H]; [exact H|inversion H].
  - destruct (String.compare n m) eqn:Hc.
    + apply String.compare_eq_iff in Hc. subst m. rewrite elem_of_cons. tauto.
    + rewrite elem_of_cons. tauto.
    + rewrite !elem_of_cons, IH. tauto.
Qed.

Lemma insert_name_sorted n l :
  StronglySorted (fun a b => String.compare a b = Lt) l ->
  StronglySorted (fun a b => String.compare a b = Lt) (insert_name n l).
Proof.
  induction l as [|m r IH]; intros Hs; cbn [insert_name].
  - repeat constructor.
  - apply StronglySorted_inv in Hs as [Hr Hm].
    destruct (String.compare n m) eqn:Hc.
    + constructor; assumption.
    + constructor; [constructor; assumption|].
      constructor; [exact Hc|].
      rewrite Forall_forall in Hm |- *. intros x Hx.
      apply (string_compare_lt_trans n m x Hc). apply Hm, Hx.
    + constructor; [apply IH, Hr|].
      rewrite Forall_forall in Hm |- *. intros x Hx.
      apply elem_of_insert_name in Hx as [->|Hx]; [apply string_compare_gt, Hc|apply Hm, Hx].
Qed.

Lemma sorted_set_sorted l :
  StronglySorted (fun a b => String.compare a b = Lt) (sorted_set l).
Proof.
  induction l as [|n l IH]; cbn [sorted_set foldr]; [constructor|].
  apply insert_name_sorted, IH.
Qed.

Lemma elem_of_sorted_set x l : x ∈ sorted_set l <-> x ∈ l.
Proof.
  induction l as [|n l IH]; cbn [sorted_set foldr]; [reflexivity|].
  rewrite elem_of_insert_name, elem_of_cons.
  unfold sorted_set in IH. rewrite IH. reflexivity.
Qed.

Lemma strictly_sorted_NoDup l :
  StronglySorted (fun a b => String.compare a b = Lt) l -> NoDup l.
Proof.
  induction l as [|n l IH]; intros Hs; [constructor|].
  apply StronglySorted_inv in Hs as [Hr Hn].
  constructor; [|apply IH, Hr].
  intros Hin. rewrite Forall_forall in Hn.
  apply (string_compare_lt_irrefl n), Hn, Hin.
Qed.

Lemma elem_of_all_keys n (table : list Row) :
  n ∈ all_keys table <-> exists d, d ∈ table /\ is_Some (d !! n).
Proof.
  unfold all_keys. rewrite list_elem_of_In, in_concat. split.
  - intros (ks & Hks & Hn). apply in_map_iff in Hks as (d & <- & Hd).
    exists d. split; [apply list_elem_of_In, Hd|].
    apply list_elem_of_In, list_elem_of_fmap in Hn as ([k v] & -> & Hkv).
    apply elem_of_map_to_list in Hkv. exists v. exact Hkv.
  - intros (d & Hd & v & Hv). exists ((map_to_list d).*1). split.
    + apply in_map_iff. exists d. split; [reflexivity|apply list_elem_of_In, Hd].
    + apply list_elem_of_In, list_elem_of_fmap. exists (n, v).
      split; [reflexivity|]. apply elem_of_map_to_list, Hv.
Qed.

(** X24: the header of a printed table, [sorted(set(keys))], is in
    strictly ascending order, names no key twice, and names exactly the keys
    that some row has. *)
Theorem table_names_sorted_distinct_complete (table : list Row) :
  StronglySorted (fun a b => String.compare a b = Lt) (sorted_set (all_keys table)) /\
  NoDup (sorted_set (all_keys table)) /\
  (forall n, n ∈ sorted_set (all_keys table) <-> exists d, d ∈ table /\ is_Some (d !! n)).
Proof.
  split; [apply sorted_set_sorted|].
  split; [apply strictly_sorted_NoDup, sorted_set_sorted|].
  intros n. rewrite elem_of_sorted_set. apply elem_of_all_keys.
Qed.

(** ** The widths of the columns *)

Lemma initial_lengths_lookup names n :
  n ∈ names -> initial_lengths names !! n = Some (String.length n).
Proof.
  unfold initial_lengths. induction names as [|m r IH]; intros Hin; [inversion Hin|].
  cbn [map]. rewrite list_to_map_cons.
  destruct (decide (m = n)) as [->|Hne].
  - apply lookup_insert_eq.
  - rewrite lookup_insert_ne by exact Hne. apply IH.
    apply elem_of_cons in Hin as [Heq|Hin]; [congruence|exact Hin].
Qed.

Lemma widen_lookup lengths kv n a :
  lengths !! n = Some a ->
  widen lengths kv !! n
  = Some (if decide (kv.1 = n) then Nat.max a (String.length (str_of kv.2)) else a).
Proof.
  intros Hn. unfold widen. destruct (decide (kv.1 = n)) as [Heq|Hne].
  - rewrite Heq, Hn. destruct (Nat.ltb_spec a (String.length (str_of kv.2))) as [Hlt|Hge].
    + rewrite lookup_insert_eq. f_equal. lia.
    + rewrite Hn. f_equal. lia.
  - destruct (lengths !! kv.1) as [l|]; [|exact Hn].
    destruct (l <? _)%nat; [|exact Hn].
    rewrite lookup_insert_ne by exact Hne. exact Hn.
Qed.

Lemma foldl_widen_lookup n : forall (kvs : list (string * PyVal)) lengths a,
  lengths !! n = Some a ->
  NoDup kvs.*1 ->
  foldl widen lengths kvs !! n
  = Some (match (list_to_map kvs : Row) !! n with
          | Some v => Nat.max a (String.length (str_of v))
          | None => a
          end).
Proof.
  induction kvs as [|[k v] r IH]; intros lengths a Hn Hnd; [exact Hn|].
  cbn [foldl]. rewrite list_to_map_cons. rewrite fmap_cons in Hnd. cbn [fst] in Hnd.
  apply NoDup_cons in Hnd as [Hk Hr].
  rewrite (IH _ _ (widen_lookup lengths (k, v) n a Hn) Hr). cbn [fst snd].
  destruct (decide (k = n)) as [->|Hne].
  - rewrite lookup_insert_eq.
    rewrite (not_elem_of_list_to_map_1 (M := gmap string) r n Hk). reflexivity.
  - rewrite lookup_insert_ne by exact Hne. reflexivity.
Qed.

(** One row widens the column of [n] to the length of its cell. *)
Lemma widen_row_lookup (d : Row) lengths n a :
  lengths !! n = Some a ->
  foldl widen lengths (map_to_list d) !! n = Some (Nat.max a (String.length (cell d n))).
Proof.
  intros Hn.
  rewrite (foldl_widen_lookup n (map_to_list d) lengths a Hn (NoDup_fst_map_to_list d)).
  rewrite list_to_map_to_list. unfold cell.
  destruct (d !! n); [reflexivity|]. f_equal. cbn [String.length]. lia.
Qed.

Lemma foldl_rows_lookup n : forall (table : list Row) lengths a,
  lengths !! n = Some a ->
  foldl (fun ls (d : Row) => foldl widen ls (map_to_list d)) lengths table !! n
  = Some (foldl (fun acc (d : Row) => Nat.max acc (String.length (cell d n))) a table).
Proof.
  induction table as [|d r IH]; intros lengths a Hn; [exact Hn|].
  cbn [foldl]. apply IH. apply widen_row_lookup, Hn.
Qed.

Lemma lengths_of_lookup table names n :
  n ∈ names -> lengths_of table names !! n = Some (column_width table n).
Proof.
  intros Hin. unfold lengths_of, column_width.
  apply foldl_rows_lookup. apply initial_lengths_lookup, Hin.
Qed.

Lemma foldl_max_le (f : Row -> nat) : forall (table : list Row) a,
  (a <= foldl (fun acc d => Nat.max acc (f d)) a table)%nat /\
  (forall d, d ∈ table -> (f d <= foldl (fun acc d => Nat.max acc (f d)) a table)%nat).
Proof.
  induction table as [|d r IH]; intros a; cbn [foldl].
  - split; [lia|]. intros d Hd. inversion Hd.
  - destruct (IH (Nat.max a (f d))) as (H1 & H2). split; [lia|].
    intros d' Hd'. apply elem_of_cons in Hd' as [->|Hd']; [lia|apply H2, Hd'].
Qed.

Lemma foldl_max_attained (f : Row -> nat) : forall (table : list Row) a,
  foldl (fun acc d => Nat.max acc (f d)) a table = a \/
  exists d, d ∈ table /\ foldl (fun acc d => Nat.max acc (f d)) a table = f d.
Proof.
  induction table as [|d r IH]; intros a; cbn [foldl]; [left; reflexivity|].
  destruct (IH (Nat.max a (f d))) as [H|(d' & Hd' & H)].
  - destruct (Nat.max_spec a (f d)) as [[_ Hm]|[_ Hm]]; rewrite Hm in *.
    + right. exists d. split; [left|exact H].
    + left. exact H.
  - right. exists d'. split; [right; exact Hd'|exact H].
Qed.

(** X25: the two loops over the rows and their items leave in
    [lengths], for every name of the header, the length of the longest text
    of its column: the name itself or the [str] of one of the values (a row
    without the key counts as the empty text).  No text of the column is
    longer, and one of them is exactly that long. *)
Theorem lengths_are_longest_texts (table : list Row) (n : string) :
  n ∈ sorted_set (all_keys table) ->
  exists width,
    lengths_of table (sorted_set (all_keys table)) !! n = Some width /\
    (String.length n <= width)%nat /\
    (forall d, d ∈ table -> (String.length (cell d n) <= width)%nat) /\
    (width = String.length n \/
     exists d, d ∈ table /\ width = String.length (cell d n)).
Proof.
  intros Hin. exists (column_width table n).
  split; [apply lengths_of_lookup, Hin|].
  unfold column_width.
  destruct (foldl_max_le (fun d => String.length (cell d n)) table (String.length n))
    as (H1 & H2).
  split; [exact H1|]. split; [exact H2|].
  apply foldl_max_attained.
Qed.

Lemma lengths_are_longest_texts_witness :
  exists width,
    lengths_of example_table (sorted_set (all_keys example_table)) !! "_broker_id"
      = Some width /\
    (String.length "_broker_id" <= width)%nat /\
    (forall d, d ∈ example_table -> (String.length (cell d "_broker_id") <= width)%nat) /\
    (width = String.length "_broker_id" \/
     exists d, d ∈ example_table /\ width = String.length (cell d "_broker_id")).
Proof.
  apply (lengths_are_longest_texts example_table "_broker_id").
  vm_compute. right. left.
Defined.

(** ** The lines of the table *)

Lemma length_append (a b : string) :
  String.length (a +:+ b) = (String.length a + String.length b)%nat.
Proof.
  induction a as [|c a IH]; [reflexivity|].
  change (String c a +:+ b) with (String c (a +:+ b)).
  cbn [String.length]. rewrite IH. reflexivity.
Qed.

Lemma length_spaces n : String.length (spaces n) = n.
Proof. induction n as [|n IH]; cbn [spaces String.length]; [reflexivity|]. rewrite IH. reflexivity. Qed.

(** A field is [width] characters long as soon as its text fits. *)
Lemma length_field width s :
  (String.length s <= width)%nat -> String.length (format_field width s) = width.
Proof. intros H. unfold format_field. rewrite length_append, length_spaces. lia. Qed.

Lemma format_line_map lengths names (f : string -> string) :
  format_line lengths names (map f names)
  = py_join "  " (map (fun n => format_field (default 0%nat (lengths !! n)) (f n)) names).
Proof.
  unfold format_line. f_equal.
  induction names as [|n r IH]; [reflexivity|].
  cbn [map zip_with]. rewrite IH. reflexivity.
Qed.

Lemma map_ext_elem {A B} (f g : A -> B) (l : list A) :
  (forall x, x ∈ l -> f x = g x) -> map f l = map g l.
Proof.
  intros H. apply map_ext_in. intros x Hx. apply H, list_elem_of_In, Hx.
Qed.

(** What is printed, in terms of the widths of the columns: the names, then
    one line per row, each text in a field of the width of its column. *)
Lemma print_table_lines (table : list Row) :
  _print_table table
  = py_join "  " (map (fun n => format_field (column_width table n) n) (sorted_set (all_keys table)))
    :: map (fun item : Row =>
              py_join "  " (map (fun n => format_field (column_width table n) (cell item n))
                             (sorted_set (all_keys table)))) table.
Proof.
  unfold _print_table.
  set (names := sorted_set (all_keys table)).
  assert (Hw : forall (f : string -> string),
            map (fun n => format_field (default 0%nat (lengths_of table names !! n)) (f n)) names
            = map (fun n => format_field (column_width table n) (f n)) names).
  { intros f. apply map_ext_elem. intros n Hn.
    rewrite (lengths_of_lookup table names n Hn). reflexivity. }
  f_equal.
  - pose proof (format_line_map (lengths_of table names) names (fun n => n)) as Hh.
    rewrite List.map_id in Hh. rewrite Hh. f_equal. apply (Hw (fun n => n)).
  - apply map_ext. intros item. rewrite format_line_map. f_equal. apply Hw.
Qed.

Lemma length_join sep (l : list string) :
  String.length (py_join sep l)
  = (sum_list (map String.length l) + String.length sep * (length l - 1))%nat.
Proof.
  induction l as [|x [|y r] IH].
  - cbn [py_join map sum_list sum_list_with length String.length Nat.sub]. lia.
  - cbn [py_join map sum_list sum_list_with length Nat.sub]. unfold id. lia.
  - change (py_join sep (x :: y :: r)) with (x +:+ sep +:+ py_join sep (y :: r)).
    rewrite !length_append, IH.
    replace (length (x :: y :: r) - 1)%nat with (S (length (y :: r) - 1))
      by (cbn [length]; lia).
    rewrite Nat.mul_succ_r. cbn [map sum_list sum_list_with]. unfold id. lia.
Qed.

Lemma cell_fits (table : list Row) (item : Row) n :
  item ∈ table -> (String.length (cell item n) <= column_width table n)%nat.
Proof.
  intros Hin. unfold column_width.
  apply (foldl_max_le (fun d => String.length (cell d n)) table (String.length n)), Hin.
Qed.

Lemma name_fits (table : list Row) n : (String.length n <= column_width table n)%nat.
Proof.
  unfold column_width.
  apply (foldl_max_le (fun d => String.length (cell d n)) table (String.length n)).
Qed.

(** X26: the printed table has one line for the names and one per row,
    and its columns are aligned: in every line the field of a column is
    exactly as wide as the column, begins with its text (the name, the
    [str] of the row's value, nothing for a row without the key) and is
    filled with spaces, so no text is cut and every line has the same
    fields two spaces apart. *)
Theorem print_table_columns_aligned (table : list Row) :
  length (_print_table table) = S (length table) /\
  forall i line,
    _print_table table !! i = Some line ->
    exists texts,
      match i with
      | O => texts = sorted_set (all_keys table)
      | S j => exists item, table !! j = Some item /\
                            texts = map (cell item) (sorted_set (all_keys table))
      end /\
    exists cells,
      line = py_join "  " cells /\
      map String.length cells = map (column_width table) (sorted_set (all_keys table)) /\
      Forall2 (fun c t => exists k, c = t +:+ spaces k) cells texts /\
      String.length line
      = (sum_list (map (column_width table) (sorted_set (all_keys table)))
         + 2 * (length (sorted_set (all_keys table)) - 1))%nat.
Proof.
  rewrite print_table_lines. set (names := sorted_set (all_keys table)).
  split; [cbn [length]; rewrite length_map; reflexivity|].
  assert (Hlen : forall cells,
            map String.length cells = map (column_width table) names ->
            String.length (py_join "  " cells)
            = (sum_list (map (column_width table) names) + 2 * (length names - 1))%nat).
  { intros cells Hc. rewrite length_join, Hc.
    apply (f_equal (@length nat)) in Hc. rewrite !length_map in Hc. rewrite Hc.
    reflexivity. }
  assert (Hfields : forall (f : string -> string),
            (forall n, (String.length (f n) <= column_width table n)%nat) ->
            map String.length (map (fun n => format_field (column_width table n) (f n)) names)
            = map (column_width table) names /\
            Forall2 (fun c t => exists k, c = t +:+ spaces k)
              (map (fun n => format_field (column_width table n) (f n)) names) (map f names)).
  { intros f Hf. split.
    - rewrite map_map. apply map_ext. intros n. apply length_field, Hf.
    - clear Hlen. induction names as [|n r IH]; [constructor|].
      cbn [map]. constructor; [|exact IH]. eexists. reflexivity. }
  intros [|j] line Hline; cbn [lookup list_lookup] in Hline.
  - apply (inj Some) in Hline. subst line.
    exists names. split; [reflexivity|]. eexists. split; [reflexivity|].
    destruct (Hfields (fun n => n) (name_fits table)) as (H1 & H2).
    rewrite List.map_id in H2. split; [exact H1|]. split; [exact H2|]. apply Hlen, H1.
  - change (map (fun item : Row => py_join "  " (map (fun n => format_field (column_width table n)
              (cell item n)) names)) table !! j = Some line) in Hline.
    apply list_lookup_fmap_Some in Hline as (item & -> & Hitem).
    exists (map (cell item) names). split; [exists item; split; [exact Hitem|reflexivity]|].
    eexists. split; [reflexivity|].
    destruct (Hfields (cell item)) as (H1 & H2).
    { intros n. apply cell_fits. apply list_elem_of_lookup. exists j. exact Hitem. }
    split; [exact H1|]. split; [exact H2|]. apply Hlen, H1.
Qed.

Lemma print_table_columns_aligned_witness :
  _print_table example_table
  = ["_broker_address  _broker_id  description  error  running  type";
     "10.0.0.1         1           None                None     None";
     "10.0.0.3         16777219                 busy                "] /\
  exists cells,
    "10.0.0.3         16777219                 busy                " = py_join "  " cells /\
    map String.length cells = [15; 10; 11; 5; 7; 4]%nat.
Proof.
  split; [vm_compute; reflexivity|].
  destruct (proj2 (print_table_columns_aligned example_table) 2%nat
              "10.0.0.3         16777219                 busy                ")
    as (texts & _ & cells & Hline & Hlen & _ & _).
  - vm_compute. reflexivity.
  - exists cells. split; [exact Hline|]. rewrite Hlen. vm_compute. reflexivity.
Defined.

(** * Errors of the coordination service in the safety check *)

(** X27: under clean election the check does not answer when it cannot
    read the topics: a lost connection or a missing [/brokers/topics] node
    is raised to the caller after that one read, and so it is by
    [has_leadership] of a controller with a known identity, which therefore
    does not answer [False] in that case. *)
Theorem leadership_check_raises_when_topics_unreadable
    (self : BrokerManager) (id_ : string) (a d : option (list string)) (w : World) :
  clean_election w ->
  id_manager self = BrokerIDByIp id_ -> id_ <> "" ->
  (zk_at w (clock w) = None ->
   _is_leadership_transferred a d w
   = (Raise ConnectionLoss, set_trace (trace w ++ [ZkGetChildren "/brokers/topics"]) w) /\
   has_leadership self w
   = (Raise ConnectionLoss, set_trace (trace w ++ [ZkGetChildren "/brokers/topics"]) w)) /\
  (forall tree,
     zk_at w (clock w) = Some tree -> tree !! "/brokers/topics" = None ->
     _is_leadership_transferred a d w
     = (Raise NoNodeError, set_trace (trace w ++ [ZkGetChildren "/brokers/topics"]) w) /\
     has_leadership self w
     = (Raise NoNodeError, set_trace (trace w ++ [ZkGetChildren "/brokers/topics"]) w)).
Proof.
  intros Hc Hid Hne.
  assert (Hcheck : forall a d e,
            exhibitor_get_children "/brokers/topics" w
            = (Raise e, set_trace (trace w ++ [ZkGetChildren "/brokers/topics"]) w) ->
            _is_leadership_transferred a d w
            = (Raise e, set_trace (trace w ++ [ZkGetChildren "/brokers/topics"]) w)).
  { intros a' d' e He. unfold _is_leadership_transferred. unfold bind at 1.
    rewrite is_clean_election_run, bool_decide_eq_true_2 by exact Hc.
    unfold bind at 1. rewrite He. reflexivity. }
  assert (Hhas : forall e,
            exhibitor_get_children "/brokers/topics" w
            = (Raise e, set_trace (trace w ++ [ZkGetChildren "/brokers/topics"]) w) ->
            has_leadership self w
            = (Raise e, set_trace (trace w ++ [ZkGetChildren "/brokers/topics"]) w)).
  { intros e He. unfold has_leadership. unfold bind at 1.
    rewrite get_broker_id_run, Hid.
    destruct id_ as [|c s]; [destruct Hne; reflexivity|].
    unfold bind. rewrite (Hcheck None (Some [String c s]) e He). reflexivity. }
  split.
  - intros Hz.
    assert (He : exhibitor_get_children "/brokers/topics" w
                 = (Raise ConnectionLoss,
                    set_trace (trace w ++ [ZkGetChildren "/brokers/topics"]) w)).
    { unfold exhibitor_get_children, bind, emit, zk_lookup.
      cbn [zk_at clock set_trace]. rewrite Hz. reflexivity. }
    split; [apply Hcheck, He|apply Hhas, He].
  - intros tree Hz Hn.
    assert (He : exhibitor_get_children "/brokers/topics" w
                 = (Raise NoNodeError,
                    set_trace (trace w ++ [ZkGetChildren "/brokers/topics"]) w)).
    { unfold exhibitor_get_children, bind, emit, zk_lookup.
      cbn [zk_at clock set_trace]. rewrite Hz, Hn. reflexivity. }
    split; [apply Hcheck, He|apply Hhas, He].
Qed.

Lemma leadership_check_raises_when_topics_unreadable_witness :
  has_leadership leader_manager unreachable_world
  = (Raise ConnectionLoss, set_trace [ZkGetChildren "/brokers/topics"] unreachable_world).
Proof.
  destruct (leadership_check_raises_when_topics_unreadable leader_manager "3" None None
              unreachable_world) as (H & _).
  - reflexivity.
  - reflexivity.
  - discriminate.
  - apply H. reflexivity.
Defined.

(** * The two waits *)

Lemma absence_loop_exhausts idm :
  forall fuel w,
  (forall k, (k < fuel)%nat ->
     registered_now idm (set_clock (clock w + k) w) = Ok true) ->
  exists evs,
    wait_for_broker_id_absence idm fuel w
    = (OutOfFuel, set_clock (clock w + fuel) (set_trace (trace w ++ evs) w)) /\
    forallb is_poll evs = true /\ slept evs = fuel.
Proof.
  induction fuel as [|fuel IH]; intros w Hk.
  - exists []. rewrite Nat.add_0_r, app_nil_r, set_trace_id, set_clock_id.
    split; [reflexivity|split; reflexivity].
  - assert (H0 : registered_now idm w = Ok true).
    { specialize (Hk 0%nat ltac:(lia)). rewrite Nat.add_0_r, set_clock_id in Hk. exact Hk. }
    cbn [wait_for_broker_id_absence]. unfold bind at 1. rewrite is_registered_run, H0.
    unfold bind at 1. rewrite sleep_run.
    set (ev := registration_events idm w).
    change (set_clock (clock (set_trace (trace w ++ ev) w) + 1)
              (set_trace (trace (set_trace (trace w ++ ev) w) ++ [Sleep 1])
                 (set_trace (trace w ++ ev) w)))
      with (set_clock (clock w + 1) (set_trace ((trace w ++ ev) ++ [Sleep 1]) w)).
    set (w2 := set_clock (clock w + 1) (set_trace ((trace w ++ ev) ++ [Sleep 1]) w)).
    assert (Hblind : forall t, registered_now idm (set_clock t w2)
                               = registered_now idm (set_clock t w)).
    { intros t. apply registered_now_frame. }
    assert (Hc : forall k, (clock w2 + k = clock w + S k)%nat).
    { intros k. change (clock w2) with (clock w + 1)%nat. lia. }
    destruct (IH w2) as (evs & Hrun & Hp & Hs).
    + intros k Hlt. rewrite Hc, Hblind. apply Hk. lia.
    + exists (ev ++ [Sleep 1] ++ evs)%list. split; [|split].
      * rewrite Hrun. rewrite Hc. f_equal.
        unfold w2, set_clock, set_trace.
        cbn [trace zk_at fs_at popen clock props persisted process wait_timeout].
        rewrite <- !app_assoc. reflexivity.
      * rewrite !forallb_app, Hp. unfold ev. rewrite registration_events_poll. reflexivity.
      * rewrite !slept_app, Hs. unfold ev. rewrite slept_registration_events.
        cbn [slept]. lia.
Qed.

(** X28: the wait of [stop] has no timeout.  While the identity stays
    registered, [stop] keeps polling and sleeping: whatever bound is put on
    the number of polls, it is used up, one second slept per poll, and
    [stop] has not returned. *)
Theorem stop_waits_as_long_as_registered (self : BrokerManager) (w : World) :
  (forall k, fst (is_registered (id_manager self) (set_clock (clock w + k) w)) = Ok true) ->
  forall fuel,
  exists evs,
    stop_kafka_process self fuel w
    = (OutOfFuel,
       set_clock (clock w + fuel)
         (set_process None
            (set_trace (trace w ++ match process w with
                                   | Some p => terminate_events p
                                   | None => []
                                   end ++ evs) w))) /\
    forallb is_poll evs = true /\ slept evs = fuel.
Proof.
  intros Hk fuel. rewrite stop_run.
  set (w1 := set_process None (set_trace (trace w ++ held_events w) w)).
  destruct (absence_loop_exhausts (id_manager self) fuel w1) as (evs & Hrun & Hp & Hs).
  - intros k _. unfold w1. rewrite registered_now_stopped.
    specialize (Hk k). rewrite is_registered_run in Hk. exact Hk.
  - exists evs. split; [|split; assumption].
    unfold try_except. rewrite Hrun. f_equal.
    unfold w1, held_events, set_clock, set_process, set_trace.
    cbn [trace zk_at fs_at popen clock props persisted process wait_timeout].
    rewrite <- app_assoc. reflexivity.
Qed.

Lemma stop_waits_as_long_as_registered_witness :
  exists evs,
    stop_kafka_process example_manager 3 registered_world
    = (OutOfFuel, set_clock 3 (set_trace evs registered_world)) /\
    forallb is_poll evs = true /\ slept evs = 3%nat.
Proof.
  apply (stop_waits_as_long_as_registered example_manager registered_world).
  intros k. reflexivity.
Defined.

Lemma presence_loop_bounded idm start timeout :
  forall fuel w r w',
  (start <= clock w)%nat ->
  (timeout + 1 - (clock w - start) < fuel)%nat ->
  presence_loop idm start timeout fuel w = (r, w') ->
  r <> OutOfFuel /\ (clock w' <= Nat.max (clock w) (start + timeout + 1))%nat.
Proof.
  induction fuel as [|fuel IH]; intros w r w' Hs Hf Hrun; [lia|].
  cbn [presence_loop] in Hrun. unfold bind at 1 in Hrun. rewrite is_registered_run in Hrun.
  pose proof (registered_now_returns idm w) as Hret.
  destruct (registered_now idm w) as [[|]|e|]; cbn [negb] in Hrun.
  - injection Hrun as <- <-. split; [discriminate|cbn [clock set_trace]; lia].
  - unfold bind at 1 in Hrun. unfold time in Hrun. cbn [clock set_trace] in Hrun.
    destruct (Nat.ltb_spec timeout (clock w - start)) as [Hlt|Hge].
    + injection Hrun as <- <-. split; [discriminate|cbn [clock set_trace]; lia].
    + unfold bind at 1 in Hrun. rewrite sleep_run in Hrun.
      apply IH in Hrun; cbn [clock set_clock set_trace] in *; [|lia|lia].
      destruct Hrun as (H1 & H2). split; [exact H1|lia].
  - injection Hrun as <- <-. split; [discriminate|cbn [clock set_trace]; lia].
  - destruct Hret. reflexivity.
Qed.

Lemma presence_wait_returns idm timeout fuel w :
  (timeout + 1 < fuel)%nat ->
  fst (wait_for_broker_id_presence idm timeout fuel w) <> OutOfFuel /\
  (clock (snd (wait_for_broker_id_presence idm timeout fuel w))
   <= clock w + timeout + 1)%nat.
Proof.
  intros Hf. unfold wait_for_broker_id_presence, bind, time.
  destruct (presence_loop idm (clock w) timeout fuel w) as [r w'] eqn:Hrun.
  destruct (presence_loop_bounded idm (clock w) timeout fuel w r w') as (H1 & H2);
    [lia|lia|exact Hrun|].
  cbn [fst snd]. split; [exact H1|lia].
Qed.

(** X29: the wait for a registration is bounded.  In every world, with
    fuel for more than [timeout + 1] polls it returns or raises: it never
    needs more polls than that, and the clock has then moved by at most
    [timeout + 1] seconds. *)
Theorem presence_wait_is_bounded
    (idm : BrokerIdGenerator) (timeout fuel : nat) (w : World) :
  (timeout + 1 < fuel)%nat ->
  fst (wait_for_broker_id_presence idm timeout fuel w) <> OutOfFuel /\
  (clock (snd (wait_for_broker_id_presence idm timeout fuel w))
   <= clock w + timeout + 1)%nat.
Proof. apply presence_wait_returns. Qed.

Lemma presence_wait_is_bounded_witness :
  fst (wait_for_broker_id_presence (BrokerIDByIp "16777219") 1 3 example_world) <> OutOfFuel /\
  (clock (snd (wait_for_broker_id_presence (BrokerIDByIp "16777219") 1 3 example_world))
   <= clock example_world + 1 + 1)%nat.
Proof.
  apply (presence_wait_is_bounded (BrokerIDByIp "16777219") 1 3 example_world). lia.
Defined.

Lemma for_each_returns {A R} (body : A -> M (option R)) :
  (forall x w, fst (body x w) <> OutOfFuel) ->
  forall l w, fst (for_each body l w) <> OutOfFuel.
Proof.
  intros Hb. induction l as [|x l IH]; intros w; cbn [for_each]; [discriminate|].
  unfold bind. pose proof (Hb x w) as Hx.
  destruct (body x w) as [[[v|]|e|] w']; cbn [fst] in *; try discriminate;
    [apply IH|exact Hx].
Qed.

Lemma exhibitor_get_children_returns path w :
  fst (exhibitor_get_children path w) <> OutOfFuel.
Proof.
  cbv [exhibitor_get_children bind emit zk_lookup ret]. cbn [zk_at clock set_trace].
  destruct (zk_at w (clock w)) as [tree|]; [|discriminate].
  destruct (tree !! path); discriminate.
Qed.

Lemma partition_loop_body_returns a d topic partition w :
  fst (partition_loop_body a d topic partition w) <> OutOfFuel.
Proof.
  cbv [partition_loop_body bind exhibitor_get emit zk_lookup json_loads ret raise].
  cbn [zk_at clock set_trace].
  destruct (zk_at w (clock w)) as [tree|]; [|discriminate].
  destruct (tree !! _) as [n|]; [|discriminate].
  destruct (znode_state n); discriminate.
Qed.

Lemma leadership_transferred_returns a d w :
  fst (_is_leadership_transferred a d w) <> OutOfFuel.
Proof.
  unfold _is_leadership_transferred. unfold bind at 1. rewrite is_clean_election_run.
  destruct (bool_decide _); [|discriminate].
  unfold bind at 1.
  pose proof (exhibitor_get_children_returns "/brokers/topics" w) as Ht.
  destruct (exhibitor_get_children "/brokers/topics" w) as [[topics|e|] w1];
    cbn [fst] in *; [|discriminate|destruct Ht; reflexivity].
  unfold bind.
  pose proof (for_each_returns (topic_loop_body a d)) as Hf.
  specialize (Hf (fun t w2 => ltac:(
    unfold topic_loop_body, bind;
    pose proof (exhibitor_get_children_returns
                  ("/brokers/topics/" +:+ t +:+ "/partitions") w2) as Hp;
    destruct (exhibitor_get_children _ w2) as [[parts|e|] w3]; cbn [fst] in *;
      [|discriminate|destruct Hp; reflexivity];
    apply for_each_returns; intros p w4; apply partition_loop_body_returns)) topics w1).
  destruct (for_each (topic_loop_body a d) topics w1) as [[[b|]|e|] w2];
    cbn [fst] in *; try discriminate. destruct Hf; reflexivity.
Qed.

Lemma await_registration_returns self fuel w :
  (wait_timeout w + 1 < fuel)%nat ->
  fst (await_registration self fuel w) <> OutOfFuel /\
  (clock (snd (await_registration self fuel w)) <= clock w + wait_timeout w + 1)%nat.
Proof.
  intros Hf. unfold await_registration. unfold bind at 1 3. unfold bind.
  destruct (presence_wait_returns (id_manager self) (wait_timeout w) fuel w Hf) as (H1 & H2).
  destruct (wait_for_broker_id_presence (id_manager self) (wait_timeout w) fuel w)
    as [[[|]|e|] w']; cbn [fst snd negb ret clock set_wait_timeout] in *;
    (split; [try discriminate|exact H2]).
  destruct H1; reflexivity.
Qed.

Lemma start_outcome self zookeeper_address fuel w r w' :
  (wait_timeout w + 1 < fuel)%nat ->
  start_kafka_process self zookeeper_address fuel w = (r, w') ->
  r <> OutOfFuel /\ (clock w' <= clock w + wait_timeout w + 1)%nat.
Proof.
  intros Hf Hrun. unfold start_kafka_process in Hrun.
  destruct (process w) as [p|].
  { injection Hrun as <- <-. split; [discriminate|lia]. }
  unfold bind at 1 in Hrun.
  pose proof (exhibitor_get_children_returns "/brokers/ids" w) as Hids.
  pose proof (reads_exhibitor_get_children "/brokers/ids" w) as Hr1.
  destruct (exhibitor_get_children "/brokers/ids" w) as [[ids|e|] w1]; cbn [fst snd] in *.
  2: { injection Hrun as <- <-.
       destruct (only_reads_frame _ _ Hr1) as (_ & _ & _ & Hc & _).
       split; [discriminate|lia]. }
  2: { destruct Hids. reflexivity. }
  unfold bind at 1 in Hrun.
  pose proof (leadership_transferred_returns (Some ids) None w1) as Hcheck.
  pose proof (reads_is_leadership_transferred (Some ids) None w1) as Hr2.
  destruct (_is_leadership_transferred (Some ids) None w1) as [[b|e|] w2];
    cbn [fst snd] in *.
  3: { destruct Hcheck. reflexivity. }
  2: { injection Hrun as <- <-.
       destruct (only_reads_frame _ _ (only_reads_trans _ _ _ Hr1 Hr2))
         as (_ & _ & _ & Hc & _).
       split; [discriminate|lia]. }
  destruct (only_reads_frame _ _ (only_reads_trans _ _ _ Hr1 Hr2))
    as (_ & _ & _ & Hc & _ & _ & _ & Hto).
  destruct b; cbn [negb] in Hrun.
  - destruct (popen w2 (start_command self)) as [p|] eqn:Hp.
    + rewrite (start_after_gate_launched self zookeeper_address fuel w2 p Hp) in Hrun.
      destruct (await_registration_returns self fuel (launched self zookeeper_address p w2))
        as (H1 & H2).
      * change (wait_timeout (launched self zookeeper_address p w2)) with (wait_timeout w2).
        lia.
      * rewrite Hrun in H1, H2. cbn [fst snd] in H1, H2. split; [exact H1|].
        change (wait_timeout (launched self zookeeper_address p w2)) with (wait_timeout w2)
          in H2.
        change (clock (launched self zookeeper_address p w2)) with (clock w2) in H2.
        lia.
    + rewrite (start_after_gate_not_launched self zookeeper_address fuel w2 Hp) in Hrun.
      injection Hrun as <- <-. split; [discriminate|].
      change (clock (configured self zookeeper_address w2)) with (clock w2). lia.
  - injection Hrun as <- <-. split; [discriminate|lia].
Qed.

(** X30: [start] is bounded by the timeout.  In every world and for every
    controller, with fuel for more than [wait_timeout + 1] polls, [start]
    returns or raises, and the clock has then moved by at most
    [wait_timeout + 1] seconds. *)
Theorem start_is_bounded_by_timeout
    (self : BrokerManager) (zookeeper_address : string) (fuel : nat) (w : World) :
  (wait_timeout w + 1 < fuel)%nat ->
  fst (start_kafka_process self zookeeper_address fuel w) <> OutOfFuel /\
  (clock (snd (start_kafka_process self zookeeper_address fuel w))
   <= clock w + wait_timeout w + 1)%nat.
Proof.
  intros Hf.
  destruct (start_kafka_process self zookeeper_address fuel w) as [r w'] eqn:Hrun.
  apply (start_outcome self zookeeper_address fuel w r w' Hf Hrun).
Qed.

Lemma start_is_bounded_by_timeout_witness :
  fst (start_kafka_process example_manager "zk:2181" 3 impatient_world) <> OutOfFuel /\
  (clock (snd (start_kafka_process example_manager "zk:2181" 3 impatient_world))
   <= clock impatient_world + wait_timeout impatient_world + 1)%nat.
Proof.
  apply (start_is_bounded_by_timeout example_manager "zk:2181" 3 impatient_world).
  vm_compute. lia.
Defined.
